(** * WeatherWise backend (backend/app.py): forecast normalisation and tips

    A shallow embedding of the functions of [backend/app.py]:
    [_mock_forecast_3_days], [get_weather_forecast], [get_fallback_tips],
    [_apply_focus_rules] and [generate_tips_gemini], followed by the
    properties of the specification that concern them.

    Modelling conventions.
    - Python/JSON values are the inductive [pyval]; a [dict] with string keys
      is a [gmap string pyval].
    - A Python [int] is a [Z].  A Python [float] is a [pyfloat]: a finite
      binary64 is represented by its exact rational value, so that mixed
      int/float comparisons are the exact comparisons Python performs.
    - A Python [str] is the string of the bytes of its UTF-8 encoding.  The
      methods of [str] that follow the Unicode character database,
      [s.lower()] and [s.strip()], are not defined here: they are the two
      operations of the interface [PyStr].
    - Exceptions are values of [exn], computations that may raise are in
      the monad [result]. *)

From Stdlib Require Import Ascii String NArith ZArith QArith Qround Lqa.
From stdpp Require Import base option list strings gmap fin_maps.

Set Warnings "-register-all".

Local Open Scope string_scope.
Local Open Scope Z_scope.
Local Open Scope list_scope.

(** ** Python values *)

Inductive pyfloat : Type :=
| FNan
| FInf (negative : bool)
| FFin (q : Q).

Inductive pyval : Type :=
| VNone
| VBool (b : bool)
| VInt (z : Z)
| VFloat (f : pyfloat)
| VStr (s : string)
| VList (l : list pyval)
| VDict (d : gmap string pyval).

Inductive exn : Type :=
| TypeError
| AttributeError
| ValueError
| HTTPError (status_code : option Z)
| LLMError.

Inductive result (A : Type) : Type :=
| Ok (a : A)
| Raise (e : exn).
Arguments Ok {A} a.
Arguments Raise {A} e.

(** [result] is a monad; stdpp's notation [x ← m; k] sequences two
    computations and stops at the first exception. *)
#[export] Instance result_ret : MRet result := fun A a => Ok a.
#[export] Instance result_bind : MBind result := fun A B k m =>
  match m with
  | Ok a => k a
  | Raise e => Raise e
  end.

(** A [for] loop that appends one item per element and aborts on the first
    exception. *)
Fixpoint mapM_result {A B : Type} (f : A -> result B) (l : list A) : result (list B) :=
  match l with
  | [] => Ok []
  | a :: l' => b ← f a; bs ← mapM_result f l'; Ok (b :: bs)
  end.

Definition is_Raise {A : Type} (m : result A) : bool :=
  match m with Ok _ => false | Raise _ => true end.

(** Rational comparisons as booleans. *)
Definition Qltb (x y : Q) : bool := negb (Qle_bool y x).
Definition Qis_zero (x : Q) : bool := Qeq_bool x 0.

(** [bool(v)]: Python truthiness. *)
Definition truthy (v : pyval) : bool :=
  match v with
  | VNone => false
  | VBool b => b
  | VInt z => negb (Z.eqb z 0)
  | VFloat FNan => true
  | VFloat (FInf _) => true
  | VFloat (FFin q) => negb (Qis_zero q)
  | VStr s => negb (String.eqb s "")
  | VList l => match l with [] => false | _ => true end
  | VDict d => negb (bool_decide (size d = 0%nat))
  end.

(** [a or b] *)
Definition py_or (a b : pyval) : pyval := if truthy a then a else b.

(** [d.get(k, default)] and [d.get(k)] on a dict. *)
Definition dict_get_default (d : gmap string pyval) (k : string) (default : pyval) : pyval :=
  match d !! k with
  | Some v => v
  | None => default
  end.

Definition dict_get (d : gmap string pyval) (k : string) : pyval :=
  dict_get_default d k VNone.

(** [v.get(k, default)] on an arbitrary value: only a dict has [get]. *)
Definition py_get (v : pyval) (k : string) (default : pyval) : result pyval :=
  match v with
  | VDict d => Ok (dict_get_default d k default)
  | _ => Raise AttributeError
  end.

(** A numeric literal of the source: an int, or a float given by the exact
    value of the binary64 nearest to the decimal written in the source. *)
Definition float_0_1 : Q := 3602879701896397 # 36028797018963968.

(** Ordering of a value against a finite numeric constant [c]:
    [Some (Lt|Eq|Gt)] for comparable numbers, [None] for NaN (every
    comparison false); a non-number raises [TypeError]. *)
Definition num_compare (v : pyval) (c : Q) : result (option comparison) :=
  match v with
  | VBool b => Ok (Some (Qcompare (inject_Z (Z.b2z b)) c))
  | VInt z => Ok (Some (Qcompare (inject_Z z) c))
  | VFloat FNan => Ok None
  | VFloat (FInf true) => Ok (Some Lt)
  | VFloat (FInf false) => Ok (Some Gt)
  | VFloat (FFin q) => Ok (Some (Qcompare q c))
  | VNone | VStr _ | VList _ | VDict _ => Raise TypeError
  end.

(** [v > c] and [v < c] *)
Definition py_gt (v : pyval) (c : Q) : result bool :=
  o ← num_compare v c;
  Ok (match o with Some Gt => true | _ => false end).

Definition py_lt (v : pyval) (c : Q) : result bool :=
  o ← num_compare v c;
  Ok (match o with Some Lt => true | _ => false end).

(** ** Strings *)

(** [needle in hay] for two strings: substring test. *)
Fixpoint contains (needle hay : string) : bool :=
  String.prefix needle hay ||
  match hay with
  | EmptyString => false
  | String _ hay' => contains needle hay'
  end.

(** [s in l] for a string and a list (or tuple) of strings. *)
Definition str_in (s : string) (l : list string) : bool :=
  existsb (String.eqb s) l.

(** [s.strip(chars)] for ASCII [chars]: the characters satisfying [drop_it]
    are removed from both ends. *)
Fixpoint lstrip (drop_it : ascii -> bool) (s : list ascii) : list ascii :=
  match s with
  | c :: s' => if drop_it c then lstrip drop_it s' else s
  | [] => []
  end.

Definition strip (drop_it : ascii -> bool) (s : string) : string :=
  string_of_list_ascii
    (rev (lstrip drop_it (rev (lstrip drop_it (list_ascii_of_string s))))).

(** The characters of a string: a byte from 128 to 191 continues the
    character begun before it. *)
Definition is_continuation (c : ascii) : bool :=
  let n := N_of_ascii c in ((128 <=? n) && (n <? 192))%N.

Fixpoint utf8_chars (s : list ascii) : list string :=
  match s with
  | [] => []
  | c :: s' =>
      match utf8_chars s' with
      | String c' ch :: rest =>
          if is_continuation c' then String c (String c' ch) :: rest
          else String c "" :: String c' ch :: rest
      | rest => String c "" :: rest
      end
  end.

(** The methods of [str] that depend on the Unicode character database:
    [s.lower()] and [s.strip()]. *)
Class PyStr : Type := {
  str_lower : string -> string;
  str_strip : string -> string
}.

(** What [s.lower()] and [s.strip()] do on a string of ASCII characters:
    [A]..[Z] are mapped to [a]..[z], and the characters 9 to 13 and 28 to
    32 are removed from both ends. *)
Definition is_ascii_string (s : string) : bool :=
  forallb (fun c => (N_of_ascii c <? 128)%N) (list_ascii_of_string s).

Definition lower_ascii (c : ascii) : ascii :=
  let n := N_of_ascii c in
  if ((65 <=? n) && (n <=? 90))%N then ascii_of_N (n + 32) else c.

Fixpoint ascii_lower (s : string) : string :=
  match s with
  | EmptyString => EmptyString
  | String c s' => String (lower_ascii c) (ascii_lower s')
  end.

Definition is_ascii_space (c : ascii) : bool :=
  let n := N_of_ascii c in
  (((9 <=? n) && (n <=? 13)) || ((28 <=? n) && (n <=? 32)))%N.

(** The facts about the two methods that the properties below rely on:
    lowering is idempotent, keeps a string that is not empty not empty,
    and both methods are the ASCII ones on ASCII strings. *)
Record str_laws `{PyStr} : Prop := {
  str_lower_idem : forall s, str_lower (str_lower s) = str_lower s;
  str_lower_nonempty : forall s, s <> "" -> str_lower s <> "";
  str_lower_ascii : forall s, is_ascii_string s = true -> str_lower s = ascii_lower s;
  str_strip_ascii : forall s, is_ascii_string s = true -> str_strip s = strip is_ascii_space s
}.

(** The two methods restricted to ASCII, for the evaluation of examples on
    ASCII strings. *)
Definition ascii_str : PyStr :=
  {| str_lower := ascii_lower; str_strip := strip is_ascii_space |}.

(** ** Rule-based tip engine: [get_fallback_tips] *)

Module Tip.
Definition rain : string :=
  "Rain expected — skip sprinklers, save water and pump energy.".
Definition dry : string :=
  "Dry conditions — water in evening for efficiency.".
Definition hot : string :=
  "Hot day — set thermostat 3°F higher; use fans to cut A/C use.".
Definition cool : string :=
  "Cool weather — lower heat by 2°F and wear layers to save energy.".
Definition mild : string :=
  "Mild temps — open windows instead of running HVAC systems.".
Definition windy : string :=
  "High winds — expect good turbine output; delay noisy generator use.".
Definition calm : string :=
  "Calm conditions — run appliances during off-peak hours for savings.".
Definition focus_sprinklers : string :=
  "Rain expected — skip sprinklers tomorrow to save water and energy.".
Definition focus_thermostat : string :=
  "Hot day tomorrow — set thermostat ~3°F higher and use fans to save A/C costs.".
Definition focus_solar : string :=
  "Sunny tomorrow — prioritize solar-powered usage for appliances/EV charging.".
End Tip.

(** ** Outcomes of the request handler *)

(** What [request.get_json(force=True)] comes to: the decoded body, or an
    exception when the body is not JSON. *)
Inductive request_json : Type :=
| JsonBody (body : pyval)
| JsonInvalid.

(** The exceptions that can reach the handler of [tips]: one raised by
    [get_json], a [KeyError] of [d["date"]], or one raised by an operation
    or a callee of the module. *)
Inductive handler_exn : Type :=
| BadRequest
| KeyError (key : string)
| Raised (e : exn).

Inductive outcome (A : Type) : Type :=
| Done (a : A)
| Failed (e : handler_exn).
Arguments Done {A} a.
Arguments Failed {A} e.

#[export] Instance outcome_ret : MRet outcome := fun A a => Done a.
#[export] Instance outcome_bind : MBind outcome := fun A B k m =>
  match m with
  | Done a => k a
  | Failed e => Failed e
  end.

Definition lift {A : Type} (r : result A) : outcome A :=
  match r with
  | Ok a => Done a
  | Raise e => Failed (Raised e)
  end.

Fixpoint mapM_outcome {A B : Type} (f : A -> outcome B) (l : list A) : outcome (list B) :=
  match l with
  | [] => Done []
  | a :: l' => b ← f a; bs ← mapM_outcome f l'; Done (b :: bs)
  end.

(** A response: the status code and the object given to [jsonify]. *)
Record response : Type := mk_response {
  status : Z;
  payload : gmap string pyval
}.

(** [v is None] *)
Definition is_none (v : pyval) : bool :=
  match v with
  | VNone => true
  | _ => false
  end.

Section Embedding.
Context {pystr : PyStr}.

(** [v.lower()] on an arbitrary value: only a str has [lower]. *)
Definition py_lower (v : pyval) : result string :=
  match v with
  | VStr s => Ok (str_lower s)
  | _ => Raise AttributeError
  end.

(** The three locals read from the day record:
    [day.get("tempmax", 70) or 70], [day.get("precip", 0) or 0] and
    [day.get("windspeed", 0) or 0]. *)
Definition day_temp_max (day : gmap string pyval) : pyval :=
  py_or (dict_get_default day "tempmax" (VInt 70)) (VInt 70).

Definition day_precip (day : gmap string pyval) : pyval :=
  py_or (dict_get_default day "precip" (VInt 0)) (VInt 0).

Definition day_wind (day : gmap string pyval) : pyval :=
  py_or (dict_get_default day "windspeed" (VInt 0)) (VInt 0).

Definition get_fallback_tips (day : gmap string pyval) : result (list string) :=
  let tips : list string := [] in
  let temp_max := day_temp_max day in
  let precip := day_precip day in
  let wind := day_wind day in
  rainy ← py_gt precip float_0_1;
  let tips := tips ++ [if rainy : bool then Tip.rain else Tip.dry] in
  is_hot ← py_gt temp_max (85 # 1);
  tips ← (if is_hot : bool then Ok (tips ++ [Tip.hot])
          else
            is_cool ← py_lt temp_max (60 # 1);
            if is_cool : bool then Ok (tips ++ [Tip.cool]) else Ok (tips ++ [Tip.mild]));
  is_windy ← py_gt wind (15 # 1);
  let tips := tips ++ [if is_windy : bool then Tip.windy else Tip.calm] in
  Ok (take 3 tips).

(** ** Focus override engine: [_apply_focus_rules] *)

Definition recognized_focuses : list string := ["thermostat"; "sprinklers"; "solar"].

(** The list [selected] after the [if focuses: ... elif focus: ...]
    statement.  An empty list and an empty string are falsy, as is [None];
    the tokens are strings, on which [str] is the identity. *)
Definition selected_focuses (focus : option string) (focuses : option (list string)) : list string :=
  match focuses with
  | Some ((_ :: _) as fs) =>
      List.filter (fun f => str_in f recognized_focuses) (List.map str_lower fs)
  | _ =>
      match focus with
      | Some ((String _ _) as f) => [str_lower f]
      | _ => []
      end
  end.

(** The list [prefix], built by three [if] statements; [and] evaluates its
    right operand only when the left one is true. *)
Definition focus_prefix (selected : list string) (desc : string) (temp_max precip : pyval)
  : result (list string) :=
  let prefix : list string := [] in
  prefix ← (if str_in "sprinklers" selected then
              rainy ← py_gt precip float_0_1;
              Ok (if rainy : bool then prefix ++ [Tip.focus_sprinklers] else prefix)
            else Ok prefix);
  prefix ← (if str_in "thermostat" selected then
              is_hot ← py_gt temp_max (85 # 1);
              Ok (if is_hot : bool then prefix ++ [Tip.focus_thermostat] else prefix)
            else Ok prefix);
  let prefix :=
    if str_in "solar" selected && (contains "sunny" desc || contains "clear" desc)
    then prefix ++ [Tip.focus_solar] else prefix in
  Ok prefix.

Definition _apply_focus_rules (day : gmap string pyval) (focus : option string)
    (tips : option (list string)) (focuses : option (list string)) : result (list string) :=
  let tips := default [] tips in
  let selected := selected_focuses focus focuses in
  match selected with
  | [] => Ok tips
  | _ =>
      desc ← py_lower (py_or (dict_get day "description") (VStr ""));
      let temp_max := day_temp_max day in
      let precip := day_precip day in
      prefix ← focus_prefix selected desc temp_max precip;
      let tips := prefix ++ tips in
      Ok (take 3 tips)
  end.

(** ** Dates, random numbers and float helpers used by the mock generator *)

(** One decimal digit, and [n] written on [width] digits with leading zeros. *)
Definition digit (n : Z) : ascii := ascii_of_N (48 + Z.to_N (n mod 10)).

Fixpoint zero_pad (width : nat) (n : Z) : string :=
  match width with
  | O => ""
  | S w => (zero_pad w (n / 10) ++ String (digit n) "")%string
  end.

(** The proleptic Gregorian (year, month, day) of a date given by its
    ordinal, [date.fromordinal]: ordinal 1 is 0001-01-01. *)
Definition date_of_ordinal (ordinal : Z) : Z * Z * Z :=
  let z := ordinal + 305 in
  let era := z / 146097 in
  let doe := z - era * 146097 in
  let yoe := (doe - doe / 1460 + doe / 36524 - doe / 146096) / 365 in
  let doy := doe - (365 * yoe + yoe / 4 - yoe / 100) in
  let mp := (5 * doy + 2) / 153 in
  let d := doy - (153 * mp + 2) / 5 + 1 in
  let m := if mp <? 10 then mp + 3 else mp - 9 in
  let y := yoe + era * 400 + (if m <=? 2 then 1 else 0) in
  (y, m, d).

(** [dt.strftime("%Y-%m-%d")] for a date between years 1000 and 9999. *)
Definition strftime_ymd (ordinal : Z) : string :=
  let '(y, m, d) := date_of_ordinal ordinal in
  (zero_pad 4 y ++ "-" ++ zero_pad 2 m ++ "-" ++ zero_pad 2 d)%string.

(** The module-level generator of [random]: the state is a position in two
    streams, one for [random.random()] (a float in [0, 1)) and one for
    [_randbelow(n)].  Float arithmetic on the drawn numbers is carried out
    on their exact rational values. *)
Record rng : Type := mk_rng {
  random_stream : nat -> Q;
  randbelow_stream : nat -> nat -> nat;
  rng_pos : nat
}.

Definition rng_next (g : rng) : rng :=
  mk_rng (random_stream g) (randbelow_stream g) (S (rng_pos g)).

(** [random.uniform(a, b)] is [a + (b - a) * random()]. *)
Definition random_uniform (a b : Q) (g : rng) : Q * rng :=
  ((a + (b - a) * random_stream g (rng_pos g))%Q, rng_next g).

(** [random.choice(seq)] is [seq[_randbelow(len(seq))]]. *)
Definition random_choice (seq : list string) (g : rng) : string * rng :=
  let i := (randbelow_stream g (rng_pos g) (length seq) mod length seq)%nat in
  (nth i seq "", rng_next g).

(** Rounding of a rational to the nearest integer, ties to even, and
    [round(x, ndigits)]. *)
Definition round_half_even (q : Q) : Z :=
  let f := Qfloor q in
  match Qcompare (q - inject_Z f) (1 # 2) with
  | Lt => f
  | Gt => f + 1
  | Eq => if Z.even f then f else f + 1
  end.

Definition py_round (q : Q) (ndigits : positive) : Q :=
  let scale := (10 ^ ndigits)%positive in
  round_half_even (q * inject_Z (Zpos scale)) # scale.

(** [int(x)]: truncation towards zero. *)
Definition py_int (q : Q) : Z := Z.quot (Qnum q) (Zpos (Qden q)).

(** ** Mock forecast generator: [_mock_forecast_3_days] *)

Definition mock_descriptions : list string :=
  ["Clear skies"; "Partly cloudy"; "Light rain"; "Sunny"; "Scattered clouds"].

(** The body of the loop for one [offset]; [today] is the ordinal of the
    date of [datetime.now()]. *)
Definition mock_day (today : Z) (offset : Z) (g : rng) : gmap string pyval * rng :=
  let dt := today + offset in
  let '(u, g) := random_uniform (-5 # 1) (5 # 1) g in
  let tempmin := ((60 # 1) + u)%Q in
  let '(u, g) := random_uniform (-5 # 1) (10 # 1) g in
  let tempmax := ((75 # 1) + u)%Q in
  let '(u_humidity, g) := random_uniform (0 # 1) (50 # 1) g in
  let '(u_wind, g) := random_uniform (0 # 1) (20 # 1) g in
  let '(u_precip, g) := random_uniform (0 # 1) (1 # 2) g in
  let '(description, g) := random_choice mock_descriptions g in
  (<[ "date" := VStr (strftime_ymd dt) ]>
   (<[ "tempmin" := VFloat (FFin (py_round tempmin 1)) ]>
   (<[ "tempmax" := VFloat (FFin (py_round tempmax 1)) ]>
   (<[ "humidity" := VInt (py_int ((35 # 1) + u_humidity)) ]>
   (<[ "windspeed" := VFloat (FFin (py_round ((5 # 1) + u_wind) 1)) ]>
   (<[ "precip" := (* round(max(0, u), 2): [max] keeps the int 0 unless u > 0 *)
        if Qltb 0 u_precip then VFloat (FFin (py_round u_precip 2)) else VInt 0 ]>
   (<[ "description" := VStr description ]> ∅)))))),
   g).

Fixpoint mock_loop (today : Z) (offsets : list Z) (g : rng)
  : list (gmap string pyval) * rng :=
  match offsets with
  | [] => ([], g)
  | offset :: rest =>
      let '(d, g) := mock_day today offset g in
      let '(days, g) := mock_loop today rest g in
      (d :: days, g)
  end.

Definition _mock_forecast_3_days (today : Z) (g : rng) : list (gmap string pyval) * rng :=
  mock_loop today [1; 2; 3] g.

(** ** Forecast normaliser: [get_weather_forecast] *)

(** The request sent to the weather provider. *)
Record http_request : Type := mk_request {
  req_url : string;
  req_key : string;
  req_q : string;
  req_days : Z;
  req_aqi : string;
  req_alerts : string;
  req_timeout : Z
}.

(** What [requests.get], [raise_for_status] and [r.json()] come to:
    the decoded body, an [HTTPError] raised by [raise_for_status], any
    other [RequestException] raised by the request (time-out, DNS, refused
    connection), or the exception [r.json()] raises on a body that is not
    JSON, which is a [RequestException] or only a [ValueError], depending
    on the version of [requests]. *)
Inductive provider_reply : Type :=
| ReplyJson (data : pyval)
| ReplyHTTPError (status_code : option Z)
| ReplyRequestException
| ReplyJsonError (is_request_exception : bool).

(** [v] as the receiver of [.get]: anything but a dict has no such attribute. *)
Definition as_dict (v : pyval) : result (gmap string pyval) :=
  match v with
  | VDict d => Ok d
  | _ => Raise AttributeError
  end.

(** The items iterated by [for fd in forecast_days[1:4]]. *)
Definition slice_1_4 (v : pyval) : result (list pyval) :=
  match v with
  | VList l => Ok (take 3 (drop 1 l))
  | VStr s => Ok (VStr <$> take 3 (drop 1 (utf8_chars (list_ascii_of_string s))))
  | _ => Raise TypeError
  end.

(** The body of the loop over the provider's forecast days. *)
Definition canonical_day (unit_group : string) (fd : pyval) : result (gmap string pyval) :=
  fd ← as_dict fd;
  day ← as_dict (dict_get_default fd "day" (VDict ∅));
  let condition := dict_get_default day "condition" (VDict ∅) in
  let '(tempmin, tempmax, windspeed, precip) :=
    if String.eqb unit_group "us" then
      (dict_get day "mintemp_f", dict_get day "maxtemp_f",
       dict_get day "maxwind_mph", dict_get day "totalprecip_in")
    else
      (dict_get day "mintemp_c", dict_get day "maxtemp_c",
       dict_get day "maxwind_mph", dict_get day "totalprecip_in") in
  condition ← as_dict condition;
  Ok (<[ "date" := dict_get fd "date" ]>
     (<[ "tempmin" := tempmin ]>
     (<[ "tempmax" := tempmax ]>
     (<[ "humidity" := dict_get day "avghumidity" ]>
     (<[ "windspeed" := windspeed ]>
     (<[ "precip" := py_or precip (VInt 0) ]>
     (<[ "description" := dict_get_default condition "text" (VStr "Clear") ]> ∅))))))).

(** Lines 87 to 117: from the decoded body to the canonical days. *)
Definition normalize_forecast (unit_group : string) (data : pyval) : result (list (gmap string pyval)) :=
  data ← as_dict data;
  forecast ← as_dict (dict_get_default data "forecast" (VDict ∅));
  let forecast_days := dict_get_default forecast "forecastday" (VList []) in
  items ← slice_1_4 forecast_days;
  mapM_result (canonical_day unit_group) items.

(** The world [get_weather_forecast] runs in: the configured key, the
    provider, the calendar date and the random generator. *)
Record world : Type := mk_world {
  WEATHERAPI_KEY : string;
  requests_get : http_request -> provider_reply;
  today : Z;
  random_state : rng
}.

Definition forecast_request (key location_param : string) : http_request :=
  mk_request "https://api.weatherapi.com/v1/forecast.json" key location_param 4 "no" "no" 12.

Definition status_denied (status_code : option Z) : bool :=
  match status_code with
  | Some c => (c =? 401) || (c =? 403) || (c =? 429)
  | None => false
  end.

(** The result and the state of the random generator afterwards. *)
Definition get_weather_forecast (w : world) (location_param unit_group : string)
  : result (list (gmap string pyval)) * rng :=
  let mock := _mock_forecast_3_days (today w) (random_state w) in
  if String.eqb (WEATHERAPI_KEY w) "" then (Ok mock.1, mock.2)
  else
    match requests_get w (forecast_request (WEATHERAPI_KEY w) location_param) with
    | ReplyHTTPError status_code =>
        if status_denied status_code then (Ok mock.1, mock.2)
        else (Raise (HTTPError status_code), random_state w)
    | ReplyRequestException => (Ok mock.1, mock.2)
    | ReplyJsonError true => (Ok mock.1, mock.2)
    | ReplyJsonError false => (Raise ValueError, random_state w)
    | ReplyJson data => (normalize_forecast unit_group data, random_state w)
    end.

(** ** LLM tip generator: [generate_tips_gemini] *)

(** The characters of the argument of [text.strip("`\n ")]. *)
Definition is_fence (c : ascii) : bool :=
  let n := N_of_ascii c in
  ((n =? 96) || (n =? 10) || (n =? 32))%N.

Definition nl : string := String (ascii_of_N 10) "".
Definition dq : string := String (ascii_of_N 34) "".

Definition system_instruction : string :=
  ("You are WeatherWise, a friendly energy-saving assistant. Given a single day's weather data, "
   ++ "produce three concrete, varied tips that help a typical household save energy, water, or money. "
   ++ "Use short, crisp sentences. Avoid repeating the same structure or phrases across tips.")%string.

(** What one call of [model.generate_content] comes to: an exception, or a
    response whose [text] attribute is a string or is missing. *)
Inductive llm_reply : Type :=
| LlmRaises
| LlmResponse (text : option string).

(** [isinstance(out, list) and len(out) == 3] *)
Definition is_list_of_3 (out : pyval) : bool :=
  match out with
  | VList l => (length l =? 3)%nat
  | _ => false
  end.

Section Gemini.
(** Library functions of the Python runtime, not part of the module:
    [json.dumps] on a day record, [json.loads] ([None] when it raises) and
    [str] on a value that is not a string. *)
Variable json_dumps : gmap string pyval -> string.
Variable json_loads : string -> option pyval.
Variable repr : pyval -> string.

(** The configuration read at start-up and the model behind the SDK. *)
Variable GEMINI_API_KEY : string.
Variable genai : option (list string -> llm_reply).

(** [str(x)] *)
Definition py_str (x : pyval) : string :=
  match x with
  | VStr s => s
  | _ => repr x
  end.

Definition user_prompt (day : gmap string pyval) : string :=
  ("Weather JSON: " ++ json_dumps day ++ nl ++ nl
   ++ "Return strictly this JSON shape (no extra text):" ++ nl
   ++ "{" ++ dq ++ "suggestions" ++ dq ++ ": ["
   ++ dq ++ "tip1" ++ dq ++ ", " ++ dq ++ "tip2" ++ dq ++ ", " ++ dq ++ "tip3" ++ dq ++ "]}"
   ++ nl ++ nl
   ++ "Constraints:" ++ nl
   ++ "- Exactly 3 tips." ++ nl
   ++ "- 6–20 words each." ++ nl
   ++ "- Each states an action and expected benefit." ++ nl
   ++ "- Vary wording and focus (HVAC, lighting, laundry, irrigation, EV, solar, cooking, etc)." ++ nl
   ++ "- Use Fahrenheit-friendly phrasing if temps look like US units." ++ nl)%string.

(** The deterministic path:
    [_apply_focus_rules(day, focus, get_fallback_tips(day), focuses)]. *)
Definition rule_based_tips (day : gmap string pyval) (focus : option string)
    (focuses : option (list string)) : result (list string) :=
  tips ← get_fallback_tips day;
  _apply_focus_rules day focus (Some tips) focuses.

(** The body of the [try]: [Ok (Some tips)] when it returns [tips],
    [Ok None] when control falls out of the [if], [Raise] when an
    exception reaches the handler. *)
Definition try_llm_text (day : gmap string pyval) (focus : option string)
    (focuses : option (list string)) (text : string) : result (option (list string)) :=
  let text := strip is_fence text in
  data ← from_option Ok (Raise ValueError) (json_loads text);
  data ← as_dict data;
  let out := dict_get data "suggestions" in
  if is_list_of_3 out then
    match out with
    | VList l =>
        tips ← _apply_focus_rules day focus (Some (py_str <$> l)) focuses;
        Ok (Some tips)
    | _ => Ok None
    end
  else Ok None.

Definition generate_tips_gemini (day : gmap string pyval) (focus : option string)
    (focuses : option (list string)) : result (list string) :=
  match genai with
  | Some generate_content =>
      if String.eqb GEMINI_API_KEY "" then rule_based_tips day focus focuses
      else
        match generate_content [system_instruction; user_prompt day] with
        | LlmRaises => Raise LLMError
        | LlmResponse res_text =>
            let text := str_strip (default "" res_text) in
            match try_llm_text day focus focuses text with
            | Ok (Some tips) => Ok tips
            | Ok None | Raise _ => rule_based_tips day focus focuses
            end
        end
  | None => rule_based_tips day focus focuses
  end.
End Gemini.

(** ** Request handler: [tips] *)

Section Handler.
(** [str] on a value that is not a string, and [str(e)] on an exception. *)
Variable repr : pyval -> string.
Variable exn_str : handler_exn -> string.

(** The two callees, on the raw values of the request body:
    [get_weather_forecast(location_param, unit_group)] and
    [generate_tips_gemini(d, focus, focuses)]. *)
Variable fetch_forecast : string -> pyval -> result (list (gmap string pyval)).
Variable generate_tips : gmap string pyval -> pyval -> pyval -> result (list string).

(** The nested "weather" object of a day entry. *)
Definition weather_object (date : pyval) (d : gmap string pyval) : gmap string pyval :=
  <[ "date" := date ]>
  (<[ "tempmin" := dict_get d "tempmin" ]>
  (<[ "tempmax" := dict_get d "tempmax" ]>
  (<[ "humidity" := dict_get d "humidity" ]>
  (<[ "windspeed" := dict_get d "windspeed" ]>
  (<[ "precip" := dict_get_default d "precip" (VInt 0) ]>
  (<[ "description" := dict_get_default d "description" (VStr "Clear") ]> ∅)))))).

(** The body of the loop over the forecast. *)
Definition day_entry (focus focuses : pyval) (d : gmap string pyval) : outcome pyval :=
  suggestions ← lift (generate_tips d focus focuses);
  date ← from_option Done (Failed (KeyError "date")) (d !! "date");
  Done (VDict (<[ "date" := date ]>
              (<[ "weather" := VDict (weather_object date d) ]>
              (<[ "suggestions" := VList (VStr <$> suggestions) ]> ∅)))).

(** The location sent to the provider: ["lat,lon"] when both are given,
    the stripped location otherwise. *)
Definition resolve_location (lat lon : pyval) (location : string) : string :=
  if negb (is_none lat) && negb (is_none lon)
  then (py_str repr lat ++ "," ++ py_str repr lon)%string
  else location.

(** The body of the [try]. *)
Definition tips_try (req : request_json) : outcome response :=
  body ← match req with
         | JsonBody body => Done body
         | JsonInvalid => Failed BadRequest
         end;
  body ← lift (as_dict (py_or body (VDict ∅)));
  let location := str_strip (py_str repr (dict_get_default body "location" (VStr ""))) in
  let lat := dict_get body "lat" in
  let lon := dict_get body "lon" in
  let unit_group := dict_get_default body "unit_group" (VStr "us") in
  let focus := dict_get body "focus" in
  let focuses := dict_get body "focuses" in
  if (is_none lat || is_none lon) && String.eqb location ""
  then Done (mk_response 400 {[ "error" := VStr "Location or lat/lon required" ]})
  else
    let location_param := resolve_location lat lon location in
    let response_location := location_param in
    forecast ← lift (fetch_forecast location_param unit_group);
    days ← mapM_outcome (day_entry focus focuses) forecast;
    Done (mk_response 200
            (<[ "location" := VStr response_location ]>
            (<[ "unit_group" := unit_group ]>
            (<[ "days" := VList days ]> ∅)))).

Definition tips (req : request_json) : response :=
  match tips_try req with
  | Done r => r
  | Failed e => mk_response 500 {[ "error" := VStr (exn_str e) ]}
  end.
End Handler.

(** * Definitions used to state the properties *)

(** ** Day records whose fields have the types of the data model *)

Definition is_number (v : pyval) : bool :=
  match v with
  | VBool _ | VInt _ | VFloat _ => true
  | _ => false
  end.

(** A field that can be compared with a number once its default is
    applied: missing, falsy (such as [None]) or a number. *)
Definition comparable_field (day : gmap string pyval) (k : string) : bool :=
  match day !! k with
  | None => true
  | Some v => is_number v || negb (truthy v)
  end.

(** A field on which [.lower()] works once its default is applied:
    missing, falsy (such as [None]) or a string. *)
Definition text_field (day : gmap string pyval) (k : string) : bool :=
  match day !! k with
  | None => true
  | Some (VStr _) => true
  | Some v => negb (truthy v)
  end.

Definition numeric_day (day : gmap string pyval) : bool :=
  comparable_field day "tempmax" && comparable_field day "precip"
  && comparable_field day "windspeed".

Definition weather_day (day : gmap string pyval) : bool :=
  numeric_day day && text_field day "description".

(** Total versions of the two comparisons: [false] where Python raises. *)
Definition gtb (v : pyval) (c : Q) : bool :=
  match num_compare v c with Ok (Some Gt) => true | _ => false end.

Definition ltb (v : pyval) (c : Q) : bool :=
  match num_compare v c with Ok (Some Lt) => true | _ => false end.

(** The three rules as pure functions of the defaulted fields. *)
Definition irrigation_tip (day : gmap string pyval) : string :=
  if gtb (day_precip day) float_0_1 then Tip.rain else Tip.dry.

Definition climate_tip (day : gmap string pyval) : string :=
  if gtb (day_temp_max day) (85 # 1) then Tip.hot
  else if ltb (day_temp_max day) (60 # 1) then Tip.cool else Tip.mild.

Definition appliance_tip (day : gmap string pyval) : string :=
  if gtb (day_wind day) (15 # 1) then Tip.windy else Tip.calm.

(** The record tempmax=90, precip=0, windspeed=5. *)
Definition day_90_0_5 : gmap string pyval :=
  {[ "tempmax" := VInt 90; "precip" := VInt 0; "windspeed" := VInt 5 ]}.

(** Records whose tempmax is present and equal to 0, and present and null. *)
Definition day_tempmax_0 : gmap string pyval := {[ "tempmax" := VInt 0 ]}.

Definition day_tempmax_null : gmap string pyval := {[ "tempmax" := VNone ]}.

Definition day_tempmax_45 : gmap string pyval :=
  {[ "tempmax" := VInt 45; "precip" := VNone ]}.

(** The local [desc] on a record whose description is a string or missing. *)
Definition day_desc (day : gmap string pyval) : string :=
  match py_or (dict_get day "description") (VStr "") with
  | VStr s => str_lower s
  | _ => ""
  end.

(** The three conditional prefix tips, as pure functions. *)
Definition sprinklers_part (selected : list string) (day : gmap string pyval) : list string :=
  if str_in "sprinklers" selected && gtb (day_precip day) float_0_1
  then [Tip.focus_sprinklers] else [].

Definition thermostat_part (selected : list string) (day : gmap string pyval) : list string :=
  if str_in "thermostat" selected && gtb (day_temp_max day) (85 # 1)
  then [Tip.focus_thermostat] else [].

Definition solar_part (selected : list string) (day : gmap string pyval) : list string :=
  if str_in "solar" selected
     && (contains "sunny" (day_desc day) || contains "clear" (day_desc day))
  then [Tip.focus_solar] else [].

Definition prefix_tips (selected : list string) (day : gmap string pyval) : list string :=
  sprinklers_part selected day ++ thermostat_part selected day ++ solar_part selected day.

Definition day_sunny : gmap string pyval := {[ "description" := VStr "Sunny skies" ]}.

(** The ways in which the text of the LLM is not accepted: it does not
    parse, it parses to something else than an object, the object has no
    "suggestions" key, or the value under that key is not a list of exactly
    three elements. *)
Inductive llm_output_rejected (json_loads : string -> option pyval) (text : string) : Prop :=
| rejected_parse :
    json_loads text = None -> llm_output_rejected json_loads text
| rejected_not_object v :
    json_loads text = Some v -> (forall d, v <> VDict d) ->
    llm_output_rejected json_loads text
| rejected_missing_key d :
    json_loads text = Some (VDict d) -> d !! "suggestions" = None ->
    llm_output_rejected json_loads text
| rejected_shape d out :
    json_loads text = Some (VDict d) -> d !! "suggestions" = Some out ->
    is_list_of_3 out = false ->
    llm_output_rejected json_loads text.

(** An LLM that answers with text that is not JSON, and a parser that
    rejects it. *)
Definition chatty_llm (_ : list string) : llm_reply :=
  LlmResponse (Some "Sure! Here are three tips.").

Definition no_json (_ : string) : option pyval := None.

(** Two canonical records that agree on every field but tempmin and
    tempmax, and two results that agree in this way record by record. *)
Definition same_except_temps (d1 d2 : gmap string pyval) : Prop :=
  forall k, k <> "tempmin" -> k <> "tempmax" -> d1 !! k = d2 !! k.

Definition results_agree (r1 r2 : result (list (gmap string pyval))) : Prop :=
  match r1, r2 with
  | Ok l1, Ok l2 => Forall2 same_except_temps l1 l2
  | Raise e1, Raise e2 => e1 = e2
  | _, _ => False
  end.

(** The provider field a temperature is read from. *)
Definition temp_field (unit_group : string) (name : string) : string :=
  if String.eqb unit_group "us" then (name ++ "_f")%string else (name ++ "_c")%string.

(** A forecast day of the provider with the documented structure: an
    object whose "day", when present, is an object whose "condition", when
    present, is an object. *)
Definition forecast_day_wf (fd : pyval) : bool :=
  match fd with
  | VDict fdd =>
      match dict_get_default fdd "day" (VDict ∅) with
      | VDict dd =>
          match dict_get_default dd "condition" (VDict ∅) with
          | VDict _ => true
          | _ => false
          end
      | _ => false
      end
  | _ => false
  end.

(** The forecast-day list of a body with the documented structure: an
    object whose "forecast", when present, is an object whose
    "forecastday", when present, is a list, the entries 1 to 3 of which are
    forecast days. *)
Definition provider_days (data : pyval) : option (list pyval) :=
  match data with
  | VDict d =>
      match dict_get_default d "forecast" (VDict ∅) with
      | VDict f =>
          match dict_get_default f "forecastday" (VList []) with
          | VList l => if forallb forecast_day_wf (take 3 (drop 1 l)) then Some l else None
          | _ => None
          end
      | _ => None
      end
  | _ => None
  end.


(** Sample provider data: forecast days with both Fahrenheit and Celsius
    fields. *)
Definition sample_forecast_day (date : string) (max_f max_c : Z) : pyval :=
  VDict {[ "date" := VStr date;
           "day" := VDict {[ "mintemp_f" := VInt 50; "mintemp_c" := VInt 10;
                             "maxtemp_f" := VInt max_f; "maxtemp_c" := VInt max_c;
                             "avghumidity" := VInt 60;
                             "maxwind_mph" := VInt 12;
                             "totalprecip_in" := VInt 0;
                             "condition" := VDict {[ "text" := VStr "Sunny" ]} ]} ]}.

Definition sample_body (days : list pyval) : pyval :=
  VDict {[ "forecast" := VDict {[ "forecastday" := VList days ]} ]}.

Definition zero_rng : rng := mk_rng (fun _ => 0%Q) (fun _ _ => 0%nat) 0.

(** A world with a configured key whose provider answers every request
    with the given reply. *)
Definition world_replying (reply : provider_reply) : world :=
  mk_world "secret" (fun _ => reply) 739924 zero_rng.

Definition body_2_days : pyval :=
  sample_body [sample_forecast_day "2026-11-04" 70 21; sample_forecast_day "2026-11-05" 90 32].

(** A body that is JSON but not an object. *)
Definition body_empty_array : pyval := VList [].

Definition body_4_days : pyval :=
  sample_body [sample_forecast_day "2026-11-04" 70 21; sample_forecast_day "2026-11-05" 90 32;
               sample_forecast_day "2026-11-06" 50 10; sample_forecast_day "2026-11-07" 66 19].

(** ** Definitions for further properties of the tip engines *)

(** The exact value of a finite number. *)
Definition number_value (v : pyval) : option Q :=
  match v with
  | VBool b => Some (inject_Z (Z.b2z b))
  | VInt z => Some (inject_Z z)
  | VFloat (FFin q) => Some q
  | _ => None
  end.

(** Two day records with the same tempmax, precip and windspeed. *)
Definition same_weather_numbers (day1 day2 : gmap string pyval) : Prop :=
  day1 !! "tempmax" = day2 !! "tempmax" /\ day1 !! "precip" = day2 !! "precip"
  /\ day1 !! "windspeed" = day2 !! "windspeed".

Definition day_text_precip : gmap string pyval :=
  {[ "tempmax" := VInt 72; "precip" := VStr "trace" ]}.

Definition day_72_humid : gmap string pyval :=
  {[ "tempmax" := VInt 72; "humidity" := VInt 90; "description" := VStr "Fog" ]}.

Definition day_85_60 : gmap string pyval :=
  {[ "tempmax" := VInt 85; "precip" := VFloat (FFin float_0_1); "windspeed" := VInt 15 ]}.

(** Two focuses lists in which the same recognised tokens occur. *)
Definition same_recognized (fs1 fs2 : list string) : Prop :=
  forall t, str_in t recognized_focuses = true ->
            str_in t (List.map str_lower fs1) = str_in t (List.map str_lower fs2).

(** The exception the focus engine raises for a selector and a day, if any:
    the description is lowered first, then precip is compared when
    sprinklers is selected, then tempmax when thermostat is selected. *)
Definition focus_exception (selected : list string) (day : gmap string pyval) : option exn :=
  match selected with
  | [] => None
  | _ =>
      if negb (text_field day "description") then Some AttributeError
      else if str_in "sprinklers" selected && negb (comparable_field day "precip")
      then Some TypeError
      else if str_in "thermostat" selected && negb (comparable_field day "tempmax")
      then Some TypeError
      else None
  end.

Definition day_bad_precip_sunny : gmap string pyval :=
  {[ "precip" := VStr "trace"; "description" := VStr "Sunny" ]}.

(** An LLM that answers with a fenced JSON object, and a parser that
    accepts exactly the object inside the fence. *)
Definition fenced_llm (_ : list string) : llm_reply :=
  LlmResponse (Some "```{three tips}```").

Definition three_tips_json (text : string) : option pyval :=
  if String.eqb text "{three tips}"
  then Some (VDict {[ "suggestions" := VList [VStr "Close blinds."; VStr "Wash cold."; VInt 3] ]})
  else None.

Definition failing_llm (_ : list string) : llm_reply := LlmRaises.

(** ** Definitions for further properties of the forecast *)

(** The keys of a canonical day record. *)
Definition canonical_keys : gset string :=
  {[ "date"; "tempmin"; "tempmax"; "humidity"; "windspeed"; "precip"; "description" ]}.

(** A body holding the forecast-day list [l] among other keys. *)
Definition body_with_days (d f : gmap string pyval) (l : list pyval) : pyval :=
  VDict (<[ "forecast" := VDict (<[ "forecastday" := VList l ]> f) ]> d).

(** A "day" object of the provider whose fields read under [unit_group]
    are numbers, null or missing, with a condition text that is a string,
    null or missing. *)
Definition provider_day_typed (unit_group : string) (fd : pyval) : bool :=
  match fd with
  | VDict fdd =>
      match dict_get_default fdd "day" (VDict ∅) with
      | VDict dd =>
          match dict_get_default dd "condition" (VDict ∅) with
          | VDict cd =>
              comparable_field dd (temp_field unit_group "maxtemp")
              && comparable_field dd "maxwind_mph"
              && comparable_field dd "totalprecip_in"
              && text_field cd "text"
          | _ => false
          end
      | _ => false
      end
  | _ => false
  end.

Definition malformed_today : pyval := VStr "today".

(** The values the mock generator can give to the fields of a record. *)
Definition mock_day_in_range (d : gmap string pyval) : Prop :=
  (exists q, d !! "tempmin" = Some (VFloat (FFin q)) /\ (55 # 1 <= q)%Q /\ (q <= 65 # 1)%Q)
  /\ (exists q, d !! "tempmax" = Some (VFloat (FFin q)) /\ (70 # 1 <= q)%Q /\ (q <= 85 # 1)%Q)
  /\ (exists z, d !! "humidity" = Some (VInt z) /\ 35 <= z <= 84)
  /\ (exists q, d !! "windspeed" = Some (VFloat (FFin q)) /\ (5 # 1 <= q)%Q /\ (q <= 25 # 1)%Q)
  /\ (d !! "precip" = Some (VInt 0)
      \/ exists q, d !! "precip" = Some (VFloat (FFin q)) /\ (0 <= q)%Q /\ (q <= 1 # 2)%Q)
  /\ (exists s, d !! "description" = Some (VStr s) /\ s ∈ mock_descriptions).

(** A generator whose [random()] stays in [0, 1). *)
Definition unit_interval_rng (g : rng) : Prop :=
  forall n, (0 <= random_stream g n)%Q /\ (random_stream g n < 1)%Q.

Definition half_rng : rng := mk_rng (fun _ => 1 # 2) (fun n _ => n) 0.

(** ** Definitions for the properties of the request handler *)

Section HandlerStatements.
Variable repr : pyval -> string.

(** The fields of the request: the decoded body when it is an object, the
    empty object when it is falsy; nothing when the body is not JSON or is
    a truthy value without [get]. *)
Definition request_fields (req : request_json) : option (gmap string pyval) :=
  match req with
  | JsonBody body =>
      match py_or body (VDict ∅) with
      | VDict d => Some d
      | _ => None
      end
  | JsonInvalid => None
  end.

(** The local [location], and whether both [lat] and [lon] are given. *)
Definition request_location (body : gmap string pyval) : string :=
  str_strip (py_str repr (dict_get_default body "location" (VStr ""))).

Definition has_coordinates (body : gmap string pyval) : bool :=
  negb (is_none (dict_get body "lat")) && negb (is_none (dict_get body "lon")).

(** The location sent to the provider and echoed in the response. *)
Definition request_location_param (body : gmap string pyval) : string :=
  resolve_location repr (dict_get body "lat") (dict_get body "lon") (request_location body).

(** The entry of the response for a day with its date and suggestions. *)
Definition day_entry_of (d : gmap string pyval) (date : pyval) (suggestions : list string)
  : pyval :=
  VDict (<[ "date" := date ]>
        (<[ "weather" := VDict (weather_object date d) ]>
        (<[ "suggestions" := VList (VStr <$> suggestions) ]> ∅))).
End HandlerStatements.

(** Callees for the evaluation of examples: a forecast of one record, tips
    that do not depend on the focus, and a provider that fails. *)
Definition one_day_forecast (_ : string) (_ : pyval) : result (list (gmap string pyval)) :=
  Ok [<[ "date" := VStr "2026-11-05" ]> day_90_0_5].

Definition failing_forecast (_ : string) (_ : pyval) : result (list (gmap string pyval)) :=
  Raise (HTTPError (Some 500)).

Definition rule_tips (d : gmap string pyval) (_ _ : pyval) : result (list string) :=
  get_fallback_tips d.

Definition request_paris : request_json :=
  JsonBody (VDict {[ "location" := VStr "Paris" ]}).

Definition request_coordinates : request_json :=
  JsonBody (VDict {[ "lat" := VInt 48; "lon" := VInt 2 ]}).

End Embedding.

(** * Properties *)

Section Generic1.
Context {pystr : PyStr}.


(** ** Evaluations of the embedding *)

Example get_fallback_tips_90_0_5 :
  get_fallback_tips day_90_0_5 = Ok [Tip.dry; Tip.hot; Tip.calm].
Proof. vm_compute. reflexivity. Qed.

End Generic1.

Section Examples1.
#[local] Existing Instance ascii_str.

Example apply_solar :
  _apply_focus_rules {[ "description" := VStr "Sunny skies" ]} (Some "Solar")
     (Some ["a"; "b"; "c"]) None = Ok [Tip.focus_solar; "a"; "b"].
Proof. vm_compute. reflexivity. Qed.

End Examples1.

Section Generic2.
Context {pystr : PyStr}.

Example strftime_ymd_2026_11_04 : strftime_ymd 739924 = "2026-11-04".
Proof. vm_compute. reflexivity. Qed.

End Generic2.

(** ** Comparisons and defaults on typed records *)

Section Generic3.
Context {pystr : PyStr}.

Lemma py_gt_number v c : is_number v = true -> py_gt v c = Ok (gtb v c).
Proof.
  unfold py_gt, gtb.
  destruct v as [| b | z | [| [] | q] | s | l | d]; simpl; intros H; try discriminate H;
    reflexivity.
Qed.

Lemma py_lt_number v c : is_number v = true -> py_lt v c = Ok (ltb v c).
Proof.
  unfold py_lt, ltb.
  destruct v as [| b | z | [| [] | q] | s | l | d]; simpl; intros H; try discriminate H;
    reflexivity.
Qed.

(** A comparable field defaulted to a number is a number. *)
Lemma defaulted_number day k (dflt : Z) :
  comparable_field day k = true ->
  is_number (py_or (dict_get_default day k (VInt dflt)) (VInt dflt)) = true.
Proof.
  unfold comparable_field, dict_get_default, py_or.
  destruct (day !! k) as [v |]; intros H.
  - destruct (truthy v) eqn:Ht; [| reflexivity].
    rewrite orb_false_r in H. exact H.
  - destruct (truthy (VInt dflt)); reflexivity.
Qed.

Lemma numeric_day_fields day :
  numeric_day day = true ->
  is_number (day_temp_max day) = true /\ is_number (day_precip day) = true
  /\ is_number (day_wind day) = true.
Proof.
  unfold numeric_day. rewrite !andb_true_iff. intros [[Ht Hp] Hw].
  repeat split; apply defaulted_number; assumption.
Qed.

Lemma get_fallback_tips_numeric day :
  numeric_day day = true ->
  get_fallback_tips day = Ok [irrigation_tip day; climate_tip day; appliance_tip day].
Proof.
  intros H. destruct (numeric_day_fields day H) as (Ht & Hp & Hw).
  unfold get_fallback_tips, irrigation_tip, climate_tip, appliance_tip.
  rewrite (py_gt_number _ _ Hp). simpl.
  rewrite (py_gt_number _ _ Ht). simpl.
  rewrite (py_gt_number _ _ Hw).
  destruct (gtb (day_temp_max day) (85 # 1)); simpl.
  - reflexivity.
  - rewrite (py_lt_number _ _ Ht). simpl.
    destruct (ltb (day_temp_max day) (60 # 1)); reflexivity.
Qed.

(** Whenever the engine returns, it has run all three rules. *)
Lemma get_fallback_tips_returns day tips :
  get_fallback_tips day = Ok tips ->
  exists t1 t2 t3, tips = [t1; t2; t3]
    /\ t1 ∈ [Tip.rain; Tip.dry] /\ t2 ∈ [Tip.hot; Tip.cool; Tip.mild]
    /\ t3 ∈ [Tip.windy; Tip.calm].
Proof.
  unfold get_fallback_tips.
  destruct (py_gt (day_precip day) float_0_1) as [b1 | e]; [| discriminate].
  simpl. destruct (py_gt (day_temp_max day) (85 # 1)) as [b2 | e]; [| discriminate].
  simpl. destruct b2; simpl.
  - destruct (py_gt (day_wind day) (15 # 1)) as [b3 | e]; [| discriminate].
    simpl. intros [= <-]. eexists _, _, _. split; [reflexivity |].
    destruct b1, b3; set_solver.
  - destruct (py_lt (day_temp_max day) (60 # 1)) as [b2 | e]; [| discriminate].
    simpl. destruct b2; simpl;
      (destruct (py_gt (day_wind day) (15 # 1)) as [b3 | e]; [| discriminate]);
      simpl; intros [= <-]; eexists _, _, _; (split; [reflexivity |]);
      destruct b1, b3; set_solver.
Qed.

End Generic3.

(** ** Rule-based tip engine *)

Section Generic4.
Context {pystr : PyStr}.

(** C8. For every day record the rule-based tip engine yields exactly three
    tips, one per rule in the order irrigation, climate control,
    wind/appliance: it returns them for every record whose fields are
    numbers or missing, and it never returns anything else; the record
    tempmax=90, precip=0, windspeed=5 yields the dry-conditions, hot-day and
    calm-conditions tips, in this order. *)
Theorem get_fallback_tips_three_tips (day : gmap string pyval) :
  (numeric_day day = true ->
     exists t1 t2 t3, get_fallback_tips day = Ok [t1; t2; t3]
       /\ t1 ∈ [Tip.rain; Tip.dry] /\ t2 ∈ [Tip.hot; Tip.cool; Tip.mild]
       /\ t3 ∈ [Tip.windy; Tip.calm])
  /\ (forall tips, get_fallback_tips day = Ok tips ->
        length tips = 3%nat
        /\ exists t1 t2 t3, tips = [t1; t2; t3]
             /\ t1 ∈ [Tip.rain; Tip.dry] /\ t2 ∈ [Tip.hot; Tip.cool; Tip.mild]
             /\ t3 ∈ [Tip.windy; Tip.calm])
  /\ get_fallback_tips day_90_0_5 = Ok [Tip.dry; Tip.hot; Tip.calm].
Proof.
  split; [| split].
  - intros H. pose proof (get_fallback_tips_numeric day H) as Heq.
    destruct (get_fallback_tips_returns day _ Heq) as (t1 & t2 & t3 & E & H1 & H2 & H3).
    exists t1, t2, t3. rewrite Heq, E. auto.
  - intros tips Heq.
    destruct (get_fallback_tips_returns day _ Heq) as (t1 & t2 & t3 & E & H1 & H2 & H3).
    split; [subst tips; reflexivity |]. exists t1, t2, t3. auto.
  - vm_compute. reflexivity.
Qed.

Lemma get_fallback_tips_three_tips_witness :
  numeric_day day_90_0_5 = true
  /\ (exists t1 t2 t3, get_fallback_tips day_90_0_5 = Ok [t1; t2; t3]
       /\ t1 ∈ [Tip.rain; Tip.dry] /\ t2 ∈ [Tip.hot; Tip.cool; Tip.mild]
       /\ t3 ∈ [Tip.windy; Tip.calm]).
Proof.
  split; [vm_compute; reflexivity |].
  apply (proj1 (get_fallback_tips_three_tips day_90_0_5)). vm_compute. reflexivity.
Defined.

(** C4, as stated, fails: a tempmax that is present is also replaced by
    70 when it is null or zero.  With tempmax present and equal to 0, which
    is strictly below 60, the second tip is the mild-temperature tip, not
    the lower-heat tip. *)
Lemma tempmax_zero_is_defaulted :
  day_tempmax_null !! "tempmax" = Some VNone
  /\ day_temp_max day_tempmax_null = VInt 70
  /\ day_tempmax_0 !! "tempmax" = Some (VInt 0)
  /\ py_lt (VInt 0) (60 # 1) = Ok true
  /\ day_temp_max day_tempmax_0 = VInt 70
  /\ get_fallback_tips day_tempmax_0 = Ok [Tip.dry; Tip.mild; Tip.calm]
  /\ Tip.mild <> Tip.cool.
Proof.
  repeat split; try (vm_compute; reflexivity).
  discriminate.
Qed.

(** C4, amended. The engine uses 70 for tempmax when the field is absent
    or null, and the field's own value when it is a number other than zero;
    for every day record whose tempmax is such a number strictly below 60
    (precip and windspeed being numbers or missing) the climate-control rule
    produces the lower-heat tip as the second tip. *)
Theorem tempmax_default_and_cool_tip (day : gmap string pyval) :
  (day !! "tempmax" = None \/ day !! "tempmax" = Some VNone ->
     day_temp_max day = VInt 70)
  /\ (forall v, day !! "tempmax" = Some v -> is_number v = true -> truthy v = true ->
        day_temp_max day = v
        /\ (ltb v (60 # 1) = true -> numeric_day day = true ->
              exists t1 t3, get_fallback_tips day = Ok [t1; Tip.cool; t3])).
Proof.
  split.
  - unfold day_temp_max, dict_get_default, py_or. intros [-> | ->]; reflexivity.
  - intros v Hv Hnum Ht.
    assert (Hmax : day_temp_max day = v).
    { unfold day_temp_max, dict_get_default, py_or. rewrite Hv, Ht. reflexivity. }
    split; [exact Hmax |].
    intros Hlt Hday. rewrite (get_fallback_tips_numeric day Hday).
    exists (irrigation_tip day), (appliance_tip day).
    unfold climate_tip. rewrite Hmax, Hlt.
    assert (Hgt : gtb v (85 # 1) = false).
    { revert Hlt. unfold ltb, gtb.
      destruct (num_compare v (60 # 1)) as [[c1 |] | e] eqn:E1; try discriminate.
      destruct c1; try discriminate. intros _.
      destruct v as [| b | z | [| [] | q] | s | l | d]; simpl in *; try discriminate;
        try reflexivity.
      - injection E1 as E1. destruct b; vm_compute; reflexivity.
      - injection E1 as E1. apply Qlt_alt in E1.
        destruct (inject_Z z ?= 85 # 1)%Q eqn:E2; try reflexivity.
        apply Qgt_alt in E2. exfalso.
        apply (Qlt_irrefl (60 # 1)). eapply Qlt_trans; [| exact E1].
        eapply Qlt_trans; [| exact E2]. reflexivity.
      - injection E1 as E1. apply Qlt_alt in E1.
        destruct (q ?= 85 # 1)%Q eqn:E2; try reflexivity.
        apply Qgt_alt in E2. exfalso.
        apply (Qlt_irrefl (60 # 1)). eapply Qlt_trans; [| exact E1].
        eapply Qlt_trans; [| exact E2]. reflexivity. }
    rewrite Hgt. reflexivity.
Qed.

Lemma tempmax_default_and_cool_tip_witness :
  day_temp_max (∅ : gmap string pyval) = VInt 70
  /\ day_temp_max day_tempmax_45 = VInt 45
  /\ exists t1 t3, get_fallback_tips day_tempmax_45 = Ok [t1; Tip.cool; t3].
Proof.
  split; [| split].
  - apply (proj1 (tempmax_default_and_cool_tip ∅)). left. reflexivity.
  - apply (proj2 (tempmax_default_and_cool_tip day_tempmax_45) (VInt 45));
      vm_compute; reflexivity.
  - apply (proj2 (tempmax_default_and_cool_tip day_tempmax_45) (VInt 45));
      vm_compute; reflexivity.
Defined.

End Generic4.

(** ** Focus override engine *)

Section Generic5.
Context {pystr : PyStr}.

Lemma py_lower_desc day :
  text_field day "description" = true ->
  py_lower (py_or (dict_get day "description") (VStr "")) = Ok (day_desc day).
Proof.
  unfold text_field, day_desc, dict_get, dict_get_default, py_or.
  destruct (day !! "description") as [v |]; [| intros _; reflexivity].
  destruct v as [| b | z | f | s | l | d]; intros H;
    try (apply negb_true_iff in H; rewrite H; reflexivity).
  destruct (truthy (VStr s)); reflexivity.
Qed.

Lemma focus_prefix_numeric selected day :
  numeric_day day = true ->
  focus_prefix selected (day_desc day) (day_temp_max day) (day_precip day)
  = Ok (prefix_tips selected day).
Proof.
  intros H. destruct (numeric_day_fields day H) as (Ht & Hp & _).
  unfold focus_prefix, prefix_tips, sprinklers_part, thermostat_part, solar_part.
  destruct (str_in "sprinklers" selected); simpl;
    [rewrite (py_gt_number _ _ Hp); simpl |];
    (destruct (str_in "thermostat" selected); simpl;
       [rewrite (py_gt_number _ _ Ht); simpl |]);
    repeat match goal with |- context [gtb ?v ?c] => destruct (gtb v c) end;
    simpl;
    destruct (str_in "solar" selected && _); reflexivity.
Qed.

(** The engine on a typed record, for a selector that is not empty. *)
Lemma apply_focus_selected day focus tips focuses :
  weather_day day = true ->
  selected_focuses focus focuses <> [] ->
  _apply_focus_rules day focus tips focuses
  = Ok (take 3 (prefix_tips (selected_focuses focus focuses) day ++ default [] tips)).
Proof.
  unfold weather_day. rewrite andb_true_iff. intros [Hnum Htxt] Hsel.
  unfold _apply_focus_rules.
  destruct (selected_focuses focus focuses) as [| f fs] eqn:E; [congruence |].
  rewrite (py_lower_desc day Htxt). simpl.
  rewrite (focus_prefix_numeric _ day Hnum). reflexivity.
Qed.

Lemma py_gt_returns v c b : py_gt v c = Ok b -> gtb v c = b.
Proof.
  unfold py_gt, gtb. destruct (num_compare v c) as [o | e]; cbn [mbind result_bind].
  - intros [= <-]. reflexivity.
  - discriminate.
Qed.

Lemma py_lower_returns day s :
  py_lower (py_or (dict_get day "description") (VStr "")) = Ok s -> s = day_desc day.
Proof.
  unfold day_desc.
  destruct (py_or (dict_get day "description") (VStr "")); cbn [py_lower];
    try discriminate.
  intros [= <-]. reflexivity.
Qed.

(** Whenever the three [if] statements run without an exception, [prefix]
    holds the triggered tips. *)
Lemma focus_prefix_returns selected day p :
  focus_prefix selected (day_desc day) (day_temp_max day) (day_precip day) = Ok p ->
  p = prefix_tips selected day.
Proof.
  unfold focus_prefix, prefix_tips, sprinklers_part, thermostat_part, solar_part.
  destruct (str_in "sprinklers" selected); cbn [andb].
  - destruct (py_gt (day_precip day) float_0_1) as [b1 | e] eqn:E1; [| discriminate].
    rewrite (py_gt_returns _ _ _ E1). cbn [mbind result_bind].
    destruct (str_in "thermostat" selected); cbn [andb mbind result_bind].
    + destruct (py_gt (day_temp_max day) (85 # 1)) as [b2 | e] eqn:E2; [| discriminate].
      rewrite (py_gt_returns _ _ _ E2). cbn [mbind result_bind].
      intros [= <-]. destruct b1, b2, (str_in "solar" selected && _); reflexivity.
    + intros [= <-]. destruct b1, (str_in "solar" selected && _); reflexivity.
  - cbn [mbind result_bind].
    destruct (str_in "thermostat" selected); cbn [andb mbind result_bind].
    + destruct (py_gt (day_temp_max day) (85 # 1)) as [b2 | e] eqn:E2; [| discriminate].
      rewrite (py_gt_returns _ _ _ E2). cbn [mbind result_bind].
      intros [= <-]. destruct b2, (str_in "solar" selected && _); reflexivity.
    + intros [= <-]. destruct (str_in "solar" selected && _); reflexivity.
Qed.

(** Whenever the engine returns for a selector that is not empty. *)
Lemma apply_focus_returns day focus tips focuses r :
  selected_focuses focus focuses <> [] ->
  _apply_focus_rules day focus tips focuses = Ok r ->
  r = take 3 (prefix_tips (selected_focuses focus focuses) day ++ default [] tips).
Proof.
  intros Hsel. unfold _apply_focus_rules.
  destruct (selected_focuses focus focuses) as [| f fs] eqn:E; [congruence |].
  destruct (py_lower _) as [s | e] eqn:El; [| discriminate].
  apply py_lower_returns in El. subst s. cbn [mbind result_bind].
  destruct (focus_prefix _ _ _ _) as [p | e] eqn:Ep; [| discriminate].
  apply focus_prefix_returns in Ep. subst p. cbn [mbind result_bind].
  intros [= <-]. reflexivity.
Qed.

(** The engine for an empty selector. *)
Lemma apply_focus_empty day focus tips focuses :
  selected_focuses focus focuses = [] ->
  _apply_focus_rules day focus tips focuses = Ok (default [] tips).
Proof. unfold _apply_focus_rules. intros ->. reflexivity. Qed.

Lemma prefix_tips_length selected day : (length (prefix_tips selected day) <= 3)%nat.
Proof.
  unfold prefix_tips, sprinklers_part, thermostat_part, solar_part.
  rewrite !length_app.
  repeat match goal with |- context [if ?b then _ else _] => destruct b end;
    simpl; lia.
Qed.

(** The ASCII methods satisfy the facts assumed of [s.lower()] and
    [s.strip()]. *)
Lemma lower_ascii_idem c : lower_ascii (lower_ascii c) = lower_ascii c.
Proof.
  destruct c as [[] [] [] [] [] [] [] []]; vm_compute; reflexivity.
Qed.

Lemma ascii_lower_idem s : ascii_lower (ascii_lower s) = ascii_lower s.
Proof.
  induction s as [| c s IH]; simpl; [reflexivity |].
  rewrite lower_ascii_idem, IH. reflexivity.
Qed.

Lemma ascii_str_laws : @str_laws ascii_str.
Proof.
  split.
  - exact ascii_lower_idem.
  - intros [| c s] Hs; [congruence | discriminate].
  - reflexivity.
  - reflexivity.
Qed.

Lemma str_lower_empty : str_laws -> str_lower "" = "".
Proof. intros Hlaws. apply (str_lower_ascii Hlaws ""). reflexivity. Qed.

Lemma selected_focuses_lower focus focuses :
  str_laws ->
  selected_focuses (str_lower <$> focus) (List.map str_lower <$> focuses)
  = selected_focuses focus focuses.
Proof.
  intros Hlaws.
  assert (Hsingle : forall fo : option string,
            match str_lower <$> fo with
            | Some ((String _ _) as f) => [str_lower f] | _ => [] end
            = match fo with Some ((String _ _) as f) => [str_lower f] | _ => [] end).
  { intros [[| c s] |]; [| | reflexivity].
    - change (str_lower <$> Some "") with (Some (str_lower "")).
      rewrite (str_lower_empty Hlaws). reflexivity.
    - change (str_lower <$> Some (String c s)) with (Some (str_lower (String c s))).
      pose proof (str_lower_nonempty Hlaws (String c s)) as Hne.
      pose proof (str_lower_idem Hlaws (String c s)) as Hidem.
      destruct (str_lower (String c s)) as [| c' s'] eqn:E; [exfalso; apply Hne; congruence |].
      rewrite Hidem. reflexivity. }
  unfold selected_focuses.
  destruct focuses as [[| f fs] |].
  - apply Hsingle.
  - change (List.map str_lower <$> Some (f :: fs))
      with (Some (str_lower f :: List.map str_lower fs)).
    cbv beta iota. f_equal.
    change (str_lower f :: List.map str_lower fs) with (List.map str_lower (f :: fs)).
    rewrite List.map_map. apply List.map_ext. exact (str_lower_idem Hlaws).
  - apply Hsingle.
Qed.

(** With a list of tokens none of which is recognised, nothing is selected. *)
Lemma selected_focuses_unrecognized focus f fs :
  Forall (fun t => str_in (str_lower t) recognized_focuses = false) (f :: fs) ->
  selected_focuses focus (Some (f :: fs)) = [].
Proof.
  assert (Hall : forall l : list string,
            Forall (fun t => str_in (str_lower t) recognized_focuses = false) l ->
            List.filter (fun t => str_in t recognized_focuses) (List.map str_lower l) = []).
  { intros l Hl. induction Hl as [| t l Ht _ IH]; [reflexivity |].
    change (List.map str_lower (t :: l)) with (str_lower t :: List.map str_lower l).
    cbn [List.filter]. rewrite Ht. exact IH. }
  intros Hl. exact (Hall _ Hl).
Qed.

Lemma unrecognized_not_selected t :
  str_in t recognized_focuses = false ->
  str_in "sprinklers" [t] = false /\ str_in "thermostat" [t] = false
  /\ str_in "solar" [t] = false.
Proof.
  unfold str_in, recognized_focuses. cbn [existsb].
  rewrite !orb_false_r, !orb_false_iff.
  rewrite (String.eqb_sym "sprinklers"), (String.eqb_sym "thermostat"),
    (String.eqb_sym "solar").
  tauto.
Qed.

(** C5. The focus engine ignores focus tokens outside thermostat,
    sprinklers and solar: a selector made only of such tokens, given as a
    focuses list or as a single focus string, behaves exactly as the empty
    selector and returns the base tips unchanged.  For the focuses list
    this holds for every day record and every list of base tips; for the
    single focus string it holds for the lists the engine is called with,
    of at most three tips, on a day record whose description is a string,
    null or missing. *)
Theorem unrecognized_focus_ignored (day : gmap string pyval) (tips : list string) :
  (forall focus f fs,
     Forall (fun t => str_in (str_lower t) recognized_focuses = false) (f :: fs) ->
     _apply_focus_rules day focus (Some tips) (Some (f :: fs)) = Ok tips
     /\ _apply_focus_rules day focus (Some tips) (Some (f :: fs))
        = _apply_focus_rules day None (Some tips) None)
  /\ (forall f focuses,
        str_in (str_lower f) recognized_focuses = false ->
        focuses = None \/ focuses = Some [] ->
        text_field day "description" = true ->
        (length tips <= 3)%nat ->
        _apply_focus_rules day (Some f) (Some tips) focuses = Ok tips
        /\ _apply_focus_rules day (Some f) (Some tips) focuses
           = _apply_focus_rules day None (Some tips) None).
Proof.
  split.
  - intros focus f fs Hf.
    rewrite (apply_focus_empty day focus (Some tips) (Some (f :: fs)));
      [| apply selected_focuses_unrecognized, Hf].
    split; reflexivity.
  - intros f focuses Hf Hfs Htxt Hlen.
    assert (Hsel : selected_focuses (Some f) focuses
                   = match f with String _ _ => [str_lower f] | _ => [] end).
    { destruct Hfs as [-> | ->]; destruct f; reflexivity. }
    assert (Heq : _apply_focus_rules day (Some f) (Some tips) focuses = Ok tips).
    { unfold _apply_focus_rules. rewrite Hsel. destruct f as [| c s]; [reflexivity |].
      destruct (unrecognized_not_selected _ Hf) as (H1 & H2 & H3).
      remember (str_lower (String c s)) as t eqn:Et.
      rewrite (py_lower_desc day Htxt). cbn [mbind result_bind].
      unfold focus_prefix. rewrite H1, H2, H3. cbn [andb mbind result_bind].
      change (default [] (Some tips)) with tips.
      rewrite take_ge by exact Hlen. reflexivity. }
    split; [exact Heq |]. rewrite Heq. reflexivity.
Qed.

End Generic5.

Section Examples3.
#[local] Existing Instance ascii_str.

Lemma unrecognized_focus_ignored_witness :
  _apply_focus_rules day_sunny (Some "solar") (Some ["a"; "b"; "c"]) (Some ["lighting"; "Pool"])
  = Ok ["a"; "b"; "c"]
  /\ _apply_focus_rules day_sunny (Some "lighting") (Some ["a"; "b"; "c"]) None
     = Ok ["a"; "b"; "c"].
Proof.
  split.
  - apply (proj1 (unrecognized_focus_ignored day_sunny ["a"; "b"; "c"])).
    repeat constructor.
  - apply (proj2 (unrecognized_focus_ignored day_sunny ["a"; "b"; "c"]) "lighting" None).
    + vm_compute. reflexivity.
    + left. reflexivity.
    + vm_compute. reflexivity.
    + vm_compute. lia.
Defined.

End Examples3.

Section Generic7.
Context {pystr : PyStr}.

(** C6. For every day record, every selector that is not empty and every
    list of base tips, the engine places the triggered prefix tips, in the
    order sprinklers, thermostat, solar, before the base tips and returns
    the first three entries of the combined list: it returns them on every
    record of the data model, it never returns anything else, and every
    prefix tip is kept, only base tips being dropped.  With focus solar and
    a description containing "sunny", the solar tip comes first and the last
    of three base tips is dropped. *)
Theorem focus_prefix_before_base_tips (day : gmap string pyval) (focus : option string)
    (focuses : option (list string)) (tips : list string) :
  selected_focuses focus focuses <> [] ->
  let selected := selected_focuses focus focuses in
  let prefix :=
    sprinklers_part selected day ++ thermostat_part selected day ++ solar_part selected day in
  (weather_day day = true ->
     _apply_focus_rules day focus (Some tips) focuses = Ok (take 3 (prefix ++ tips)))
  /\ (forall r, _apply_focus_rules day focus (Some tips) focuses = Ok r ->
        r = take 3 (prefix ++ tips))
  /\ take 3 (prefix ++ tips) = prefix ++ take (3 - length prefix) tips
  /\ (forall a b c, tips = [a; b; c] -> weather_day day = true ->
        selected = ["solar"] -> contains "sunny" (day_desc day) = true ->
        _apply_focus_rules day focus (Some tips) focuses = Ok [Tip.focus_solar; a; b]).
Proof.
  intros Hsel selected prefix.
  assert (Heq : weather_day day = true ->
                _apply_focus_rules day focus (Some tips) focuses
                = Ok (take 3 (prefix ++ tips))).
  { intros Hday. exact (apply_focus_selected day focus (Some tips) focuses Hday Hsel). }
  split; [exact Heq |]. split; [| split].
  - intros r Hr. exact (apply_focus_returns day focus (Some tips) focuses r Hsel Hr).
  - pose proof (prefix_tips_length selected day) as Hlen.
    fold (prefix_tips selected day) in prefix. fold prefix in Hlen.
    rewrite take_app. rewrite (take_ge prefix) by exact Hlen. reflexivity.
  - intros a b c -> Hday Hsolar Hsunny. rewrite (Heq Hday).
    subst prefix. unfold sprinklers_part, thermostat_part, solar_part.
    rewrite Hsolar, Hsunny. reflexivity.
Qed.

End Generic7.

Section Examples4.
#[local] Existing Instance ascii_str.

Lemma focus_prefix_before_base_tips_witness :
  _apply_focus_rules day_sunny None (Some ["a"; "b"; "c"]) (Some ["solar"])
  = Ok [Tip.focus_solar; "a"; "b"].
Proof.
  apply (fun H =>
           proj2 (proj2 (proj2 (focus_prefix_before_base_tips day_sunny None (Some ["solar"])
                                  ["a"; "b"; "c"] H))) "a" "b" "c");
    try (vm_compute; reflexivity).
  vm_compute. discriminate.
Defined.

End Examples4.

Section Generic8.
Context {pystr : PyStr}.

(** C9. Focus tokens are matched without regard to case: the tokens of a
    focuses list are lowercased before the test against thermostat,
    sprinklers and solar, a single focus string is lowercased before the
    membership tests of the prefix rules, and the engine returns the same
    result on the tokens and on their lowercase forms, as for "Solar" and
    "SPRINKLERS". *)
Theorem focus_case_insensitive (day : gmap string pyval) (focus : option string)
    (tips : option (list string)) (focuses : option (list string)) :
  str_laws ->
  _apply_focus_rules day (str_lower <$> focus) tips (List.map str_lower <$> focuses)
  = _apply_focus_rules day focus tips focuses
  /\ (forall f fs, focuses = Some (f :: fs) ->
        selected_focuses focus focuses
        = List.filter (fun t => str_in t recognized_focuses) (List.map str_lower (f :: fs)))
  /\ (forall c s, focuses = None -> focus = Some (String c s) ->
        selected_focuses focus focuses = [str_lower (String c s)])
  /\ _apply_focus_rules day (Some "Solar") tips None
     = _apply_focus_rules day (Some "solar") tips None
  /\ _apply_focus_rules day None tips (Some ["SPRINKLERS"])
     = _apply_focus_rules day None tips (Some ["sprinklers"]).
Proof.
  intros Hlaws.
  split; [| split; [| split; [| split]]].
  - unfold _apply_focus_rules. rewrite (selected_focuses_lower _ _ Hlaws). reflexivity.
  - intros f fs ->. reflexivity.
  - intros c s -> ->. reflexivity.
  - unfold _apply_focus_rules.
    change (selected_focuses (Some "Solar") None) with [str_lower "Solar"].
    change (selected_focuses (Some "solar") None) with [str_lower "solar"].
    rewrite (str_lower_ascii Hlaws "Solar" eq_refl), (str_lower_ascii Hlaws "solar" eq_refl).
    reflexivity.
  - unfold _apply_focus_rules.
    change (selected_focuses None (Some ["SPRINKLERS"]))
      with (List.filter (fun t => str_in t recognized_focuses) [str_lower "SPRINKLERS"]).
    change (selected_focuses None (Some ["sprinklers"]))
      with (List.filter (fun t => str_in t recognized_focuses) [str_lower "sprinklers"]).
    rewrite (str_lower_ascii Hlaws "SPRINKLERS" eq_refl),
      (str_lower_ascii Hlaws "sprinklers" eq_refl).
    reflexivity.
Qed.

End Generic8.

Section Examples5.
#[local] Existing Instance ascii_str.

Lemma focus_case_insensitive_witness :
  selected_focuses None (Some ["Solar"; "Lighting"; "SPRINKLERS"]) = ["solar"; "sprinklers"]
  /\ selected_focuses (Some "ThermoStat") None = ["thermostat"].
Proof.
  split.
  - rewrite (proj1 (proj2 (focus_case_insensitive ∅ None None
                             (Some ["Solar"; "Lighting"; "SPRINKLERS"]) ascii_str_laws))
               "Solar" ["Lighting"; "SPRINKLERS"] eq_refl).
    vm_compute. reflexivity.
  - rewrite (proj1 (proj2 (proj2 (focus_case_insensitive ∅ (Some "ThermoStat") None None
                                    ascii_str_laws)))
               "T"%char "hermoStat" eq_refl eq_refl).
    vm_compute. reflexivity.
Defined.

End Examples5.

Section Generic9.
Context {pystr : PyStr}.

(** C10. When a focuses list that is not empty is supplied together with a
    single focus string, the list decides and the single focus is never
    consulted: the result is the same for every single focus, and when no
    token of the list is recognised the base tips are returned unchanged,
    whatever the single focus. *)
Theorem focuses_take_precedence (day : gmap string pyval) (tips : list string)
    (f : string) (fs : list string) :
  (forall focus focus',
     _apply_focus_rules day focus (Some tips) (Some (f :: fs))
     = _apply_focus_rules day focus' (Some tips) (Some (f :: fs)))
  /\ (forall focus,
        selected_focuses focus (Some (f :: fs))
        = List.filter (fun t => str_in t recognized_focuses) (List.map str_lower (f :: fs)))
  /\ (Forall (fun t => str_in (str_lower t) recognized_focuses = false) (f :: fs) ->
      forall focus, _apply_focus_rules day focus (Some tips) (Some (f :: fs)) = Ok tips).
Proof.
  split; [| split].
  - intros focus focus'. reflexivity.
  - intros focus. reflexivity.
  - intros H focus.
    rewrite (apply_focus_empty day focus (Some tips) (Some (f :: fs)));
      [reflexivity | apply selected_focuses_unrecognized, H].
Qed.

End Generic9.

Section Examples6.
#[local] Existing Instance ascii_str.

Lemma focuses_take_precedence_witness :
  _apply_focus_rules day_sunny (Some "solar") (Some ["a"; "b"; "c"]) (Some ["lighting"])
  = Ok ["a"; "b"; "c"].
Proof.
  apply (proj2 (proj2 (focuses_take_precedence day_sunny ["a"; "b"; "c"] "lighting" []))).
  repeat constructor.
Defined.

End Examples6.

(** ** LLM tip generator *)

Section Generic10.
Context {pystr : PyStr}.

Section GeminiFallback.
Variable json_dumps : gmap string pyval -> string.
Variable json_loads : string -> option pyval.
Variable repr : pyval -> string.
Variable GEMINI_API_KEY : string.
Variable generate_content : list string -> llm_reply.

Lemma try_llm_text_rejected day focus focuses text :
  llm_output_rejected json_loads (strip is_fence text) ->
  try_llm_text json_loads repr day focus focuses text = Ok None
  \/ exists e, try_llm_text json_loads repr day focus focuses text = Raise e.
Proof.
  unfold try_llm_text. intros [Hp | v Hp Hv | d Hp Hk | d out Hp Hk Hs]; rewrite Hp; simpl.
  - right. eexists. reflexivity.
  - right. destruct v; try (eexists; reflexivity). exfalso. eapply Hv. reflexivity.
  - left. unfold dict_get, dict_get_default. rewrite Hk. reflexivity.
  - left. unfold dict_get, dict_get_default. rewrite Hk, Hs. reflexivity.
Qed.

(** C3. For every day record and focus input, when the text returned by
    the LLM, once stripped as the code strips it (surrounding whitespace,
    then surrounding backquotes, newlines and spaces), fails to parse, is
    not an object, has no "suggestions" key, or
    holds under that key something that is not a list of exactly three
    elements, [generate_tips_gemini] returns exactly what the focus
    override engine returns on the tips of the rule-based engine for the
    same day and focus. *)
Theorem generate_tips_gemini_falls_back (day : gmap string pyval) (focus : option string)
    (focuses : option (list string)) (res_text : option string) :
  generate_content [system_instruction; user_prompt json_dumps day] = LlmResponse res_text ->
  llm_output_rejected json_loads
    (strip is_fence (str_strip (default "" res_text))) ->
  generate_tips_gemini json_dumps json_loads repr GEMINI_API_KEY (Some generate_content)
    day focus focuses
  = (tips ← get_fallback_tips day; _apply_focus_rules day focus (Some tips) focuses).
Proof.
  intros Hreply Hrej. unfold generate_tips_gemini.
  destruct (String.eqb GEMINI_API_KEY ""); [reflexivity |].
  rewrite Hreply.
  destruct (try_llm_text_rejected day focus focuses _ Hrej) as [-> | [e ->]];
    reflexivity.
Qed.
End GeminiFallback.

End Generic10.

Section Examples7.
#[local] Existing Instance ascii_str.

Lemma generate_tips_gemini_falls_back_witness :
  generate_tips_gemini (fun _ => "{}") no_json (fun _ => "") "key" (Some chatty_llm)
    day_90_0_5 (Some "thermostat") None
  = Ok [Tip.focus_thermostat; Tip.dry; Tip.hot].
Proof.
  rewrite (generate_tips_gemini_falls_back (fun _ => "{}") no_json (fun _ => "") "key"
             chatty_llm day_90_0_5 (Some "thermostat") None
             (Some "Sure! Here are three tips.")).
  - vm_compute. reflexivity.
  - reflexivity.
  - apply rejected_parse. reflexivity.
Defined.

End Examples7.

(** ** Forecast normaliser *)

Section Generic11.
Context {pystr : PyStr}.

(** What [canonical_day] returns, field by field. *)
Lemma canonical_day_fields unit_group fd d :
  canonical_day unit_group fd = Ok d ->
  exists fdd dd cd,
    fd = VDict fdd
    /\ dict_get_default fdd "day" (VDict ∅) = VDict dd
    /\ dict_get_default dd "condition" (VDict ∅) = VDict cd
    /\ d = <[ "date" := dict_get fdd "date" ]>
          (<[ "tempmin" := dict_get dd (temp_field unit_group "mintemp") ]>
          (<[ "tempmax" := dict_get dd (temp_field unit_group "maxtemp") ]>
          (<[ "humidity" := dict_get dd "avghumidity" ]>
          (<[ "windspeed" := dict_get dd "maxwind_mph" ]>
          (<[ "precip" := py_or (dict_get dd "totalprecip_in") (VInt 0) ]>
          (<[ "description" := dict_get_default cd "text" (VStr "Clear") ]> ∅)))))).
Proof.
  unfold canonical_day, temp_field.
  destruct fd as [| | | | | | fdd]; try discriminate. cbn [as_dict mbind result_bind].
  destruct (dict_get_default fdd "day" (VDict ∅)) as [| | | | | | dd] eqn:Ed; try discriminate.
  cbn [as_dict mbind result_bind].
  destruct (String.eqb unit_group "us");
    (destruct (dict_get_default dd "condition" (VDict ∅)) as [| | | | | | cd] eqn:Ec;
       try discriminate);
    cbn [as_dict mbind result_bind]; intros [= <-];
    exists fdd, dd, cd; repeat split; first [assumption | reflexivity].
Qed.

Lemma canonical_day_wf unit_group fdd dd cd :
  dict_get_default fdd "day" (VDict ∅) = VDict dd ->
  dict_get_default dd "condition" (VDict ∅) = VDict cd ->
  exists d, canonical_day unit_group (VDict fdd) = Ok d.
Proof.
  intros Hd Hc. unfold canonical_day. cbn [as_dict mbind result_bind].
  rewrite Hd. cbn [as_dict mbind result_bind].
  destruct (String.eqb unit_group "us"); rewrite Hc; cbn [as_dict mbind result_bind];
    eexists; reflexivity.
Qed.

(** Whether [canonical_day] raises, and what, does not depend on the unit
    system; when it returns, only tempmin and tempmax do. *)
Lemma canonical_day_units u1 u2 fd :
  match canonical_day u1 fd, canonical_day u2 fd with
  | Ok d1, Ok d2 => same_except_temps d1 d2
  | Raise e1, Raise e2 => e1 = e2
  | _, _ => False
  end.
Proof.
  destruct (canonical_day u1 fd) as [d1 | e1] eqn:E1.
  - destruct (canonical_day_fields _ _ _ E1) as (fdd & dd & cd & -> & Hd & Hc & ->).
    pose proof (canonical_day_wf u2 fdd dd cd Hd Hc) as [d2 E2]. rewrite E2.
    destruct (canonical_day_fields _ _ _ E2) as (fdd' & dd' & cd' & Hf & Hd' & Hc' & ->).
    injection Hf as Hf. subst fdd'.
    rewrite Hd in Hd'. injection Hd' as Hd'. subst dd'.
    rewrite Hc in Hc'. injection Hc' as Hc'. subst cd'.
    intros k Hmin Hmax.
    rewrite !lookup_insert. repeat case_decide; congruence.
  - destruct (canonical_day u2 fd) as [d2 | e2] eqn:E2.
    + destruct (canonical_day_fields _ _ _ E2) as (fdd & dd & cd & -> & Hd & Hc & ->).
      pose proof (canonical_day_wf u1 fdd dd cd Hd Hc) as [d1 E1']. congruence.
    + revert E1 E2. unfold canonical_day.
      destruct fd as [| | | | | | fdd]; cbn [as_dict mbind result_bind]; try congruence.
      destruct (dict_get_default fdd "day" (VDict ∅)) as [| | | | | | dd];
        cbn [as_dict mbind result_bind]; try congruence.
      destruct (String.eqb u1 "us"), (String.eqb u2 "us");
        destruct (dict_get_default dd "condition" (VDict ∅)); cbn; congruence.
Qed.

Lemma mapM_canonical_day_units u1 u2 items :
  results_agree (mapM_result (canonical_day u1) items) (mapM_result (canonical_day u2) items).
Proof.
  induction items as [| fd items IH]; [constructor |].
  cbn [mapM_result]. pose proof (canonical_day_units u1 u2 fd) as H.
  destruct (canonical_day u1 fd) as [d1 | e1], (canonical_day u2 fd) as [d2 | e2];
    try contradiction; cbn [mbind result_bind]; [| exact H].
  unfold results_agree in IH.
  destruct (mapM_result (canonical_day u1) items) as [l1 | e1],
           (mapM_result (canonical_day u2) items) as [l2 | e2];
    try contradiction; cbn [mbind result_bind results_agree]; [| exact IH].
  constructor; assumption.
Qed.

Lemma normalize_forecast_units u1 u2 data :
  results_agree (normalize_forecast u1 data) (normalize_forecast u2 data).
Proof.
  unfold normalize_forecast.
  destruct (as_dict data) as [d | e]; [| reflexivity]. cbn [mbind result_bind].
  destruct (as_dict (dict_get_default d "forecast" (VDict ∅))) as [f | e]; [| reflexivity].
  cbn [mbind result_bind].
  destruct (slice_1_4 _) as [items | e]; [| reflexivity]. cbn [mbind result_bind].
  apply mapM_canonical_day_units.
Qed.

Lemma results_agree_refl r : results_agree r r.
Proof.
  destruct r as [l | e]; [| reflexivity]. cbn.
  induction l; constructor; [intros k _ _; reflexivity | assumption].
Qed.

Lemma canonical_day_of_wf unit_group fd :
  forecast_day_wf fd = true -> exists d, canonical_day unit_group fd = Ok d.
Proof.
  unfold forecast_day_wf.
  destruct fd as [| | | | | | fdd]; try discriminate.
  destruct (dict_get_default fdd "day" (VDict ∅)) as [| | | | | | dd] eqn:Ed;
    try discriminate.
  destruct (dict_get_default dd "condition" (VDict ∅)) as [| | | | | | cd] eqn:Ec;
    try discriminate.
  intros _. exact (canonical_day_wf unit_group fdd dd cd Ed Ec).
Qed.

Lemma mapM_canonical_day_wf unit_group items :
  forallb forecast_day_wf items = true ->
  exists days, mapM_result (canonical_day unit_group) items = Ok days
    /\ Forall2 (fun fd d => canonical_day unit_group fd = Ok d) items days.
Proof.
  induction items as [| fd items IH]; cbn [forallb mapM_result].
  - intros _. exists []. split; [reflexivity | constructor].
  - rewrite andb_true_iff. intros [Hfd Hitems].
    destruct (canonical_day_of_wf unit_group fd Hfd) as [d Hd].
    destruct (IH Hitems) as (days & Hdays & Hall).
    exists (d :: days). rewrite Hd, Hdays. split; [reflexivity |].
    constructor; assumption.
Qed.

Lemma normalize_forecast_wf unit_group data l :
  provider_days data = Some l ->
  exists days, normalize_forecast unit_group data = Ok days
    /\ Forall2 (fun fd d => canonical_day unit_group fd = Ok d) (take 3 (drop 1 l)) days.
Proof.
  unfold provider_days, normalize_forecast.
  destruct data as [| | | | | | d]; try discriminate. cbn [as_dict mbind result_bind].
  destruct (dict_get_default d "forecast" (VDict ∅)) as [| | | | | | f]; try discriminate.
  cbn [as_dict mbind result_bind].
  destruct (dict_get_default f "forecastday" (VList [])) as [| | | | | l' |]; try discriminate.
  cbn [slice_1_4 mbind result_bind].
  destruct (forallb forecast_day_wf (take 3 (drop 1 l'))) eqn:Hwf; [| discriminate].
  intros [= <-]. exact (mapM_canonical_day_wf unit_group _ Hwf).
Qed.

Lemma mock_loop_length today offsets g :
  length (mock_loop today offsets g).1 = length offsets.
Proof.
  revert g. induction offsets as [| o offsets IH]; intros g; [reflexivity |].
  cbn [mock_loop]. destruct (mock_day today o g) as [d g1].
  specialize (IH g1). destruct (mock_loop today offsets g1) as [days g2].
  cbn in *. rewrite IH. reflexivity.
Qed.



(** The result with a configured credential, by the reply of the provider. *)
Lemma get_weather_forecast_configured w location_param unit_group :
  WEATHERAPI_KEY w <> "" ->
  (get_weather_forecast w location_param unit_group).1
  = match requests_get w (forecast_request (WEATHERAPI_KEY w) location_param) with
    | ReplyHTTPError s =>
        if status_denied s
        then Ok (_mock_forecast_3_days (today w) (random_state w)).1
        else Raise (HTTPError s)
    | ReplyRequestException => Ok (_mock_forecast_3_days (today w) (random_state w)).1
    | ReplyJsonError true => Ok (_mock_forecast_3_days (today w) (random_state w)).1
    | ReplyJsonError false => Raise ValueError
    | ReplyJson data => normalize_forecast unit_group data
    end.
Proof.
  intros Hkey. unfold get_weather_forecast.
  destruct (String.eqb_spec (WEATHERAPI_KEY w) ""); [contradiction |].
  destruct (requests_get w _) as [data | s | | []]; try reflexivity.
  destruct (status_denied s); reflexivity.
Qed.




Lemma status_denied_spec s :
  status_denied s = true <-> s = Some 401 \/ s = Some 403 \/ s = Some 429.
Proof.
  unfold status_denied. destruct s as [c |].
  - rewrite !orb_true_iff, !Z.eqb_eq. split.
    + intros [[-> | ->] | ->]; auto.
    + intros [[= ->] | [[= ->] | [= ->]]]; auto.
  - split; [discriminate |]. intros [E | [E | E]]; discriminate E.
Qed.

(** The exceptions raised while a decoded body is read. *)
Lemma canonical_day_exn unit_group fd e :
  canonical_day unit_group fd = Raise e -> e = AttributeError.
Proof.
  unfold canonical_day.
  destruct fd as [| | | | | | fdd]; cbn [as_dict mbind result_bind]; try congruence.
  destruct (dict_get_default fdd "day" (VDict ∅)) as [| | | | | | dd];
    cbn [as_dict mbind result_bind]; try congruence.
  destruct (String.eqb unit_group "us");
    destruct (dict_get_default dd "condition" (VDict ∅));
    cbn [as_dict mbind result_bind]; congruence.
Qed.

Lemma mapM_canonical_day_exn unit_group items e :
  mapM_result (canonical_day unit_group) items = Raise e -> e = AttributeError.
Proof.
  induction items as [| fd items IH]; cbn [mapM_result]; [discriminate |].
  destruct (canonical_day unit_group fd) as [d | e'] eqn:Ed; cbn [mbind result_bind].
  - destruct (mapM_result (canonical_day unit_group) items) as [ds | e'];
      cbn [mbind result_bind]; [discriminate |].
    intros [= <-]. apply IH. reflexivity.
  - intros [= <-]. exact (canonical_day_exn _ _ _ Ed).
Qed.

Lemma normalize_forecast_exn unit_group data e :
  normalize_forecast unit_group data = Raise e -> e = AttributeError \/ e = TypeError.
Proof.
  unfold normalize_forecast.
  destruct data as [| | | | | | d]; cbn [as_dict mbind result_bind];
    try (intros [= <-]; left; reflexivity).
  destruct (dict_get_default d "forecast" (VDict ∅)) as [| | | | | | f];
    cbn [as_dict mbind result_bind]; try (intros [= <-]; left; reflexivity).
  destruct (dict_get_default f "forecastday" (VList [])) as [| | | | s | l |];
    cbn [slice_1_4 mbind result_bind]; try (intros [= <-]; right; reflexivity);
    intros Hm; left; exact (mapM_canonical_day_exn _ _ _ Hm).
Qed.

(** C2, as stated, fails: with a configured key and a successful reply
    whose body is the JSON array [[]], no HTTP error occurs and the
    normaliser raises an [AttributeError], at [data.get]. *)
Lemma malformed_body_raises :
  WEATHERAPI_KEY (world_replying (ReplyJson body_empty_array)) <> ""
  /\ requests_get (world_replying (ReplyJson body_empty_array))
       (forecast_request "secret" "Paris") = ReplyJson body_empty_array
  /\ (get_weather_forecast (world_replying (ReplyJson body_empty_array)) "Paris" "us").1
     = Raise AttributeError.
Proof.
  split; [discriminate |]. split; vm_compute; reflexivity.
Qed.

(** C2, amended. With a configured credential, a transport-level failure
    and the HTTP statuses 401, 403 and 429 make the normaliser return the
    3-day mock forecast without an error, and every other HTTP error status
    is raised to the caller: the normaliser raises an [HTTPError] if and
    only if the provider call fails with an HTTP error status outside 401,
    403 and 429.  A successful reply with a body of the documented
    structure raises nothing.  The only other exceptions come from reading
    a successful reply: an [AttributeError] or a [TypeError] on JSON that
    has not the documented structure, and the error of decoding a body that
    is not JSON when that error is not a [RequestException] (when it is
    one, the mock forecast is returned). *)
Theorem provider_failure_handling (w : world) (location_param unit_group : string) :
  WEATHERAPI_KEY w <> "" ->
  let mock := (_mock_forecast_3_days (today w) (random_state w)).1 in
  let reply := requests_get w (forecast_request (WEATHERAPI_KEY w) location_param) in
  let r := (get_weather_forecast w location_param unit_group).1 in
  let outside s := ~ (s = Some 401 \/ s = Some 403 \/ s = Some 429) in
  length mock = 3%nat
  /\ (reply = ReplyRequestException -> r = Ok mock)
  /\ (forall s, reply = ReplyHTTPError s ->
        (s = Some 401 \/ s = Some 403 \/ s = Some 429 -> r = Ok mock)
        /\ (outside s -> r = Raise (HTTPError s))
        /\ (is_Raise r = true <-> outside s))
  /\ (forall s, r = Raise (HTTPError s) <-> reply = ReplyHTTPError s /\ outside s)
  /\ (forall data, reply = ReplyJson data -> is_Some (provider_days data) ->
        is_Raise r = false)
  /\ (forall data e, reply = ReplyJson data -> r = Raise e ->
        e = AttributeError \/ e = TypeError)
  /\ (forall b, reply = ReplyJsonError b -> r = if b then Ok mock else Raise ValueError)
  /\ (is_Raise r = true <->
      (exists s, reply = ReplyHTTPError s /\ outside s)
      \/ reply = ReplyJsonError false
      \/ (exists data, reply = ReplyJson data
                       /\ is_Raise (normalize_forecast unit_group data) = true)).
Proof.
  intros Hkey mock reply r outside.
  pose proof (get_weather_forecast_configured w location_param unit_group Hkey) as Hr.
  fold mock reply r in Hr.
  assert (Hhttp : forall s, reply = ReplyHTTPError s ->
            (s = Some 401 \/ s = Some 403 \/ s = Some 429 -> r = Ok mock)
            /\ (outside s -> r = Raise (HTTPError s))
            /\ (is_Raise r = true <-> outside s)).
  { intros s E. rewrite Hr, E. pose proof (status_denied_spec s) as Hs. subst outside.
    destruct (status_denied s); cbn [is_Raise].
    - split; [reflexivity |]. split.
      + intros Hn. exfalso. apply Hn, Hs. reflexivity.
      + split; [discriminate |]. intros Hn. exfalso. apply Hn, Hs. reflexivity.
    - assert (Hn : ~ (s = Some 401 \/ s = Some 403 \/ s = Some 429)).
      { intros Hin. apply Hs in Hin. discriminate Hin. }
      split; [intros Hin; contradiction |]. split; [reflexivity |].
      split; [intros _; exact Hn | reflexivity]. }
  split; [apply mock_loop_length |].
  split; [intros E; rewrite Hr, E; reflexivity |].
  split; [exact Hhttp |].
  split; [| split; [| split; [| split]]].
  - intros s. split.
    + intros Hraise. destruct reply as [data | s' | | b] eqn:E.
      * rewrite Hr in Hraise.
        destruct (normalize_forecast_exn _ _ _ Hraise) as [Hx | Hx]; discriminate Hx.
      * destruct (Hhttp s' eq_refl) as (Hden & Hout & Hiff).
        assert (Ho : outside s').
        { apply Hiff. rewrite Hraise. reflexivity. }
        rewrite (Hout Ho) in Hraise. injection Hraise as ->. split; [reflexivity | exact Ho].
      * rewrite Hr in Hraise. discriminate Hraise.
      * rewrite Hr in Hraise. destruct b; discriminate Hraise.
    + intros [E Ho]. apply (Hhttp s E). exact Ho.
  - intros data E [l Hl]. rewrite Hr, E.
    destruct (normalize_forecast_wf unit_group data l Hl) as (days & -> & _). reflexivity.
  - intros data e E Hraise. rewrite Hr, E in Hraise.
    exact (normalize_forecast_exn _ _ _ Hraise).
  - intros b E. rewrite Hr, E. destruct b; reflexivity.
  - split.
    + intros Hraise. destruct reply as [data | s | | b] eqn:E.
      * right. right. exists data. split; [reflexivity |]. rewrite Hr in Hraise. exact Hraise.
      * left. exists s. split; [reflexivity |]. apply (Hhttp s eq_refl). exact Hraise.
      * rewrite Hr in Hraise. discriminate Hraise.
      * rewrite Hr in Hraise. destruct b; [discriminate Hraise |]. right. left. reflexivity.
    + intros [(s & E & Hn) | [E | (data & E & Hraise)]].
      * apply (Hhttp s E). exact Hn.
      * rewrite Hr, E. reflexivity.
      * rewrite Hr, E. exact Hraise.
Qed.

Lemma provider_failure_handling_witness :
  (get_weather_forecast (world_replying (ReplyHTTPError (Some 500))) "Paris" "us").1
  = Raise (HTTPError (Some 500))
  /\ is_Raise (get_weather_forecast (world_replying (ReplyHTTPError (Some 429))) "Paris" "us").1
     = false
  /\ is_Raise (get_weather_forecast (world_replying ReplyRequestException) "Paris" "us").1
     = false
  /\ is_Raise (get_weather_forecast (world_replying (ReplyJson body_4_days)) "Paris" "us").1
     = false.
Proof.
  split; [| split; [| split]].
  - destruct (provider_failure_handling (world_replying (ReplyHTTPError (Some 500)))
                "Paris" "us") as (_ & _ & _ & Hiff & _); [discriminate |].
    apply Hiff. split; [reflexivity |].
    intros [E | [E | E]]; discriminate E.
  - destruct (provider_failure_handling (world_replying (ReplyHTTPError (Some 429)))
                "Paris" "us") as (_ & _ & Hhttp & _); [discriminate |].
    destruct (Hhttp (Some 429) eq_refl) as (Hok & _).
    rewrite Hok; [reflexivity | auto].
  - destruct (provider_failure_handling (world_replying ReplyRequestException)
                "Paris" "us") as (_ & Hreq & _); [discriminate |].
    rewrite (Hreq eq_refl). reflexivity.
  - destruct (provider_failure_handling (world_replying (ReplyJson body_4_days))
                "Paris" "us") as (_ & _ & _ & _ & Hjson & _); [discriminate |].
    apply (Hjson body_4_days eq_refl). eexists. vm_compute. reflexivity.
Defined.

(** C7. For every provider response and location, every canonical field
    but tempmin and tempmax, windspeed and precip among them, is the same
    under unit system "us" and under any other unit system: windspeed is
    always read from the provider's mph field and precip from its inch
    field, while tempmin and tempmax are read from the Fahrenheit fields
    under "us" and from the Celsius fields otherwise, and do differ. *)
Theorem windspeed_precip_unit_independent (w : world) (location_param u1 u2 : string) :
  results_agree (get_weather_forecast w location_param u1).1
                (get_weather_forecast w location_param u2).1
  /\ (forall days1 days2,
        (get_weather_forecast w location_param u1).1 = Ok days1 ->
        (get_weather_forecast w location_param u2).1 = Ok days2 ->
        Forall2 (fun d1 d2 => d1 !! "windspeed" = d2 !! "windspeed"
                              /\ d1 !! "precip" = d2 !! "precip") days1 days2)
  /\ (forall data, results_agree (normalize_forecast u1 data) (normalize_forecast u2 data))
  /\ (forall fd d, canonical_day u1 fd = Ok d ->
        exists fdd dd,
          fd = VDict fdd /\ dict_get_default fdd "day" (VDict ∅) = VDict dd
          /\ d !! "windspeed" = Some (dict_get dd "maxwind_mph")
          /\ d !! "precip" = Some (py_or (dict_get dd "totalprecip_in") (VInt 0))
          /\ d !! "tempmin"
             = Some (dict_get dd (if String.eqb u1 "us" then "mintemp_f" else "mintemp_c"))
          /\ d !! "tempmax"
             = Some (dict_get dd (if String.eqb u1 "us" then "maxtemp_f" else "maxtemp_c")))
  /\ normalize_forecast "us" body_2_days <> normalize_forecast "metric" body_2_days.
Proof.
  assert (Hagree : results_agree (get_weather_forecast w location_param u1).1
                                 (get_weather_forecast w location_param u2).1).
  { unfold get_weather_forecast.
    destruct (String.eqb (WEATHERAPI_KEY w) ""); [apply results_agree_refl |].
    destruct (requests_get w _) as [data | s | | []].
    - apply normalize_forecast_units.
    - destruct (status_denied s); apply results_agree_refl.
    - apply results_agree_refl.
    - apply results_agree_refl.
    - reflexivity. }
  split; [exact Hagree |]. split; [| split; [| split]].
  - intros days1 days2 E1 E2. rewrite E1, E2 in Hagree. cbn in Hagree.
    eapply Forall2_impl; [exact Hagree |].
    intros d1 d2 H. split; apply H; discriminate.
  - intros data. apply normalize_forecast_units.
  - intros fd d Hd.
    destruct (canonical_day_fields _ _ _ Hd) as (fdd & dd & cd & -> & Hday & _ & ->).
    exists fdd, dd. split; [reflexivity |]. split; [exact Hday |].
    unfold temp_field. destruct (String.eqb u1 "us"); repeat split; reflexivity.
  - vm_compute. intros H. discriminate H.
Qed.

Lemma windspeed_precip_unit_independent_witness :
  exists d1 d2,
    (get_weather_forecast (world_replying (ReplyJson body_2_days)) "Paris" "us").1 = Ok [d1]
    /\ (get_weather_forecast (world_replying (ReplyJson body_2_days)) "Paris" "metric").1
       = Ok [d2]
    /\ d1 !! "windspeed" = d2 !! "windspeed" /\ d1 !! "precip" = d2 !! "precip".
Proof.
  destruct (get_weather_forecast (world_replying (ReplyJson body_2_days)) "Paris" "us").1
    as [[| d1 [| ? ?]] | e] eqn:E1; try (vm_compute in E1; discriminate E1).
  destruct (get_weather_forecast (world_replying (ReplyJson body_2_days)) "Paris" "metric").1
    as [[| d2 [| ? ?]] | e] eqn:E2; try (vm_compute in E2; discriminate E2).
  exists d1, d2. split; [reflexivity |]. split; [reflexivity |].
  pose proof (proj1 (proj2 (windspeed_precip_unit_independent
                              (world_replying (ReplyJson body_2_days)) "Paris" "us" "metric"))
                [d1] [d2] E1 E2) as H.
  inversion H as [| ? ? ? ? Hd _]; subst. exact Hd.
Defined.

End Generic11.

(** * Further properties *)

(** ** Rule-based tip engine: errors, inputs read, thresholds *)

Section Generic12.
Context {pystr : PyStr}.

Lemma py_gt_defaulted day k (dflt : Z) c :
  py_gt (py_or (dict_get_default day k (VInt dflt)) (VInt dflt)) c
  = if comparable_field day k
    then Ok (gtb (py_or (dict_get_default day k (VInt dflt)) (VInt dflt)) c)
    else Raise TypeError.
Proof.
  destruct (comparable_field day k) eqn:E.
  - apply py_gt_number, defaulted_number, E.
  - revert E. unfold comparable_field, dict_get_default, py_or.
    destruct (day !! k) as [v |]; [| discriminate].
    rewrite orb_false_iff, negb_false_iff. intros [Hn Ht]. rewrite Ht.
    destruct v as [| b | z | f | s | l | d]; try discriminate Hn; try discriminate Ht;
      reflexivity.
Qed.

(** X1. The rule-based engine raises exactly when tempmax, precip or
    windspeed holds a truthy value that is not a number, and what it raises
    is a [TypeError]; in every other case it returns its three tips. *)
Theorem get_fallback_tips_type_error (day : gmap string pyval) :
  (get_fallback_tips day = Raise TypeError <-> numeric_day day = false)
  /\ (forall e, get_fallback_tips day = Raise e -> e = TypeError)
  /\ (is_Raise (get_fallback_tips day) = negb (numeric_day day)).
Proof.
  assert (Hcases : get_fallback_tips day
                   = if numeric_day day
                     then Ok [irrigation_tip day; climate_tip day; appliance_tip day]
                     else Raise TypeError).
  { destruct (numeric_day day) eqn:E; [apply get_fallback_tips_numeric, E |].
    unfold numeric_day in E. unfold get_fallback_tips, day_precip, day_temp_max, day_wind.
    rewrite !py_gt_defaulted.
    destruct (comparable_field day "precip"); [| reflexivity].
    cbn [mbind result_bind].
    destruct (comparable_field day "tempmax") eqn:Et; [| reflexivity].
    cbn [mbind result_bind].
    destruct (comparable_field day "windspeed"); [discriminate E |].
    destruct (gtb _ (85 # 1)); cbn [mbind result_bind]; [reflexivity |].
    rewrite (py_lt_number _ _ (defaulted_number day "tempmax" 70 Et)).
    cbn [mbind result_bind]. destruct (ltb _ _); reflexivity. }
  rewrite Hcases. destruct (numeric_day day); cbn [is_Raise negb].
  - repeat split; intros; first [discriminate | reflexivity].
  - repeat split; intros; first [reflexivity | congruence].
Qed.

Lemma get_fallback_tips_type_error_witness :
  get_fallback_tips day_text_precip = Raise TypeError.
Proof.
  apply (proj1 (get_fallback_tips_type_error day_text_precip)).
  vm_compute. reflexivity.
Defined.

(** X2. The tips are a function of tempmax, precip and windspeed alone:
    two day records that agree on these three keys get the same result,
    whatever their date, tempmin, humidity and description. *)
Theorem get_fallback_tips_reads_three_fields (day1 day2 : gmap string pyval) :
  same_weather_numbers day1 day2 ->
  get_fallback_tips day1 = get_fallback_tips day2.
Proof.
  intros (Ht & Hp & Hw).
  unfold get_fallback_tips, day_temp_max, day_precip, day_wind, dict_get_default.
  rewrite Ht, Hp, Hw. reflexivity.
Qed.

Lemma get_fallback_tips_reads_three_fields_witness :
  get_fallback_tips day_72_humid = get_fallback_tips {[ "tempmax" := VInt 72 ]}.
Proof.
  apply get_fallback_tips_reads_three_fields.
  repeat split; vm_compute; reflexivity.
Defined.

Lemma gtb_value v c q : number_value v = Some q -> (gtb v c = true <-> (c < q)%Q).
Proof.
  unfold gtb.
  destruct v as [| b | z | [| n | q'] | s | l | d]; cbn [number_value num_compare];
    intros [= <-];
    (rewrite (Qgt_alt _ c);
     destruct (_ ?= c)%Q; split; intros H; first [reflexivity | discriminate H]).
Qed.

Lemma ltb_value v c q : number_value v = Some q -> (ltb v c = true <-> (q < c)%Q).
Proof.
  unfold ltb.
  destruct v as [| b | z | [| n | q'] | s | l | d]; cbn [number_value num_compare];
    intros [= <-];
    (rewrite (Qlt_alt _ c);
     destruct (_ ?= c)%Q; split; intros H; first [reflexivity | discriminate H]).
Qed.

(** X3. On finite numbers the three rules switch exactly at their
    thresholds, which belong to the neutral side: the rain tip needs precip
    above the float 0.1, the hot-day tip tempmax above 85, the lower-heat
    tip tempmax below 60, the high-wind tip windspeed above 15; tempmax 85
    and 60 both give the mild tip. *)
Theorem tip_thresholds (day : gmap string pyval) (p t w : Q) :
  numeric_day day = true ->
  number_value (day_precip day) = Some p ->
  number_value (day_temp_max day) = Some t ->
  number_value (day_wind day) = Some w ->
  exists t1 t2 t3,
    get_fallback_tips day = Ok [t1; t2; t3]
    /\ (t1 = Tip.rain <-> (float_0_1 < p)%Q)
    /\ (t1 = Tip.dry <-> (p <= float_0_1)%Q)
    /\ (t2 = Tip.hot <-> (85 # 1 < t)%Q)
    /\ (t2 = Tip.cool <-> (t < 60 # 1)%Q)
    /\ (t2 = Tip.mild <-> (60 # 1 <= t)%Q /\ (t <= 85 # 1)%Q)
    /\ (t3 = Tip.windy <-> (15 # 1 < w)%Q)
    /\ (t3 = Tip.calm <-> (w <= 15 # 1)%Q).
Proof.
  intros Hday Hp Ht Hw.
  exists (irrigation_tip day), (climate_tip day), (appliance_tip day).
  split; [apply get_fallback_tips_numeric, Hday |].
  pose proof (gtb_value _ float_0_1 _ Hp) as Gp.
  pose proof (gtb_value _ (85 # 1) _ Ht) as Gt85.
  pose proof (ltb_value _ (60 # 1) _ Ht) as Lt60.
  pose proof (gtb_value _ (15 # 1) _ Hw) as Gw.
  unfold irrigation_tip, climate_tip, appliance_tip.
  assert (Hr : Tip.rain <> Tip.dry) by discriminate.
  assert (Hhc : Tip.hot <> Tip.cool) by discriminate.
  assert (Hhm : Tip.hot <> Tip.mild) by discriminate.
  assert (Hcm : Tip.cool <> Tip.mild) by discriminate.
  assert (Hwc : Tip.windy <> Tip.calm) by discriminate.
  destruct (gtb (day_precip day) float_0_1);
    destruct (gtb (day_temp_max day) (85 # 1));
    destruct (ltb (day_temp_max day) (60 # 1));
    destruct (gtb (day_wind day) (15 # 1));
    repeat match goal with
    | H : true = true <-> _ |- _ => destruct H as [H _]; specialize (H eq_refl)
    | H : false = true <-> ?P |- _ =>
        assert (~ P) by (let X := fresh in intros X; apply H in X; discriminate X);
        clear H
    end;
    repeat split; intros;
    first [reflexivity | congruence | lra].
Qed.

Lemma tip_thresholds_witness :
  exists t1 t2 t3,
    get_fallback_tips day_85_60 = Ok [t1; t2; t3]
    /\ t1 = Tip.dry /\ t2 = Tip.mild /\ t3 = Tip.calm.
Proof.
  destruct (tip_thresholds day_85_60 float_0_1 (85 # 1) (15 # 1))
    as (t1 & t2 & t3 & H & _ & H1 & _ & _ & H2 & _ & H3);
    try (vm_compute; reflexivity).
  exists t1, t2, t3. split; [exact H |]. split; [| split].
  - apply H1. apply Qle_refl.
  - apply H2. split; [discriminate | apply Qle_refl].
  - apply H3. apply Qle_refl.
Defined.

End Generic12.

(** ** Focus override engine: length, order of tokens, errors *)

Section Generic13.
Context {pystr : PyStr}.

(** X4. The focus engine never lengthens the tip list beyond three: with
    an empty selector it returns the base tips as they are, with any other
    selector at most three tips, and exactly three whenever there are
    exactly three base tips. *)
Theorem apply_focus_length (day : gmap string pyval) (focus : option string)
    (tips : option (list string)) (focuses : option (list string)) (r : list string) :
  _apply_focus_rules day focus tips focuses = Ok r ->
  (selected_focuses focus focuses = [] -> r = default [] tips)
  /\ (selected_focuses focus focuses <> [] -> (length r <= 3)%nat)
  /\ ((length (default [] tips) <= 3)%nat -> (length r <= 3)%nat)
  /\ (length (default [] tips) = 3%nat -> length r = 3%nat).
Proof.
  intros Hr.
  destruct (selected_focuses focus focuses) as [| f fs] eqn:E.
  - rewrite (apply_focus_empty day focus tips focuses E) in Hr. injection Hr as <-.
    repeat split; intros; first [reflexivity | congruence | lia].
  - assert (Hsel : selected_focuses focus focuses <> []) by (rewrite E; discriminate).
    pose proof (apply_focus_returns day focus tips focuses r Hsel Hr) as ->.
    rewrite length_take, length_app.
    repeat split; intros; first [discriminate | lia].
Qed.

End Generic13.

Section Examples8.
#[local] Existing Instance ascii_str.

Lemma apply_focus_length_witness :
  exists r, _apply_focus_rules day_sunny (Some "solar") (Some ["a"; "b"; "c"]) None = Ok r
            /\ length r = 3%nat.
Proof.
  exists [Tip.focus_solar; "a"; "b"]. split; [vm_compute; reflexivity |].
  apply (apply_focus_length day_sunny (Some "solar") (Some ["a"; "b"; "c"]) None);
    vm_compute; reflexivity.
Defined.

End Examples8.

Section Generic14.
Context {pystr : PyStr}.

Lemma str_in_cons t a l : str_in t (a :: l) = String.eqb t a || str_in t l.
Proof. reflexivity. Qed.

Lemma str_in_filter_recognized t l :
  str_in t recognized_focuses = true ->
  str_in t (List.filter (fun f => str_in f recognized_focuses) l) = str_in t l.
Proof.
  intros Ht. induction l as [| a l IH]; [reflexivity |].
  cbn [List.filter]. rewrite str_in_cons.
  destruct (String.eqb_spec t a) as [<- | Hne].
  - rewrite Ht. rewrite str_in_cons, String.eqb_refl. reflexivity.
  - destruct (str_in a recognized_focuses); [| exact IH].
    rewrite str_in_cons. destruct (String.eqb_spec t a); [contradiction | exact IH].
Qed.

Lemma filter_recognized_head a l l' :
  List.filter (fun f => str_in f recognized_focuses) l = a :: l' ->
  str_in a recognized_focuses = true /\ str_in a l = true.
Proof.
  induction l as [| b l IH]; [discriminate |].
  cbn [List.filter]. destruct (str_in b recognized_focuses) eqn:Eb.
  - intros [= -> _]. split; [exact Eb |]. rewrite str_in_cons, String.eqb_refl. reflexivity.
  - intros H. destruct (IH H) as [H1 H2]. split; [exact H1 |].
    rewrite str_in_cons, H2. apply orb_true_r.
Qed.

(** The prefix depends on the selector only through the three tests. *)
Lemma focus_prefix_same_tests sel1 sel2 desc temp_max precip :
  str_in "sprinklers" sel1 = str_in "sprinklers" sel2 ->
  str_in "thermostat" sel1 = str_in "thermostat" sel2 ->
  str_in "solar" sel1 = str_in "solar" sel2 ->
  focus_prefix sel1 desc temp_max precip = focus_prefix sel2 desc temp_max precip.
Proof. unfold focus_prefix. intros -> -> ->. reflexivity. Qed.

(** X5. Only the set of recognised tokens of a focuses list matters: two
    lists, neither empty, in which the same recognised tokens occur (in any
    order, any number of times, with any other tokens) give the same
    result; in particular a list gives the same result reversed or
    repeated. *)
Theorem focuses_order_irrelevant (day : gmap string pyval) (focus : option string)
    (tips : option (list string)) (f1 f2 : string) (fs1 fs2 : list string) :
  (same_recognized (f1 :: fs1) (f2 :: fs2) ->
   _apply_focus_rules day focus tips (Some (f1 :: fs1))
   = _apply_focus_rules day focus tips (Some (f2 :: fs2)))
  /\ _apply_focus_rules day focus tips (Some ((f1 :: fs1) ++ (f1 :: fs1)))
     = _apply_focus_rules day focus tips (Some (f1 :: fs1))
  /\ _apply_focus_rules day focus tips (Some (f1 :: fs1 ++ [f2]))
     = _apply_focus_rules day focus tips (Some (f2 :: f1 :: fs1)).
Proof.
  assert (Hmain : forall g1 g2 l1 l2,
            same_recognized (g1 :: l1) (g2 :: l2) ->
            _apply_focus_rules day focus tips (Some (g1 :: l1))
            = _apply_focus_rules day focus tips (Some (g2 :: l2))).
  { intros g1 g2 l1 l2 Hsame. unfold _apply_focus_rules.
    change (selected_focuses focus (Some (g1 :: l1)))
      with (List.filter (fun f => str_in f recognized_focuses) (List.map str_lower (g1 :: l1))).
    change (selected_focuses focus (Some (g2 :: l2)))
      with (List.filter (fun f => str_in f recognized_focuses) (List.map str_lower (g2 :: l2))).
    set (s1 := List.filter _ (List.map str_lower (g1 :: l1))).
    set (s2 := List.filter _ (List.map str_lower (g2 :: l2))).
    assert (Hin : forall t, str_in t recognized_focuses = true -> str_in t s1 = str_in t s2).
    { intros t Ht. subst s1 s2. rewrite !str_in_filter_recognized by exact Ht.
      apply Hsame, Ht. }
    destruct s1 as [| a1 s1'] eqn:E1, s2 as [| a2 s2'] eqn:E2.
    - reflexivity.
    - exfalso. destruct (filter_recognized_head _ _ _ E2) as [Hrec _].
      specialize (Hin a2 Hrec). rewrite str_in_cons, String.eqb_refl in Hin.
      discriminate Hin.
    - exfalso. destruct (filter_recognized_head _ _ _ E1) as [Hrec _].
      specialize (Hin a1 Hrec). rewrite str_in_cons, String.eqb_refl in Hin.
      discriminate Hin.
    - destruct (py_lower _) as [desc | e]; [| reflexivity]. cbn [mbind result_bind].
      rewrite (focus_prefix_same_tests (a1 :: s1') (a2 :: s2'));
        [reflexivity | apply Hin; reflexivity ..]. }
  split; [apply Hmain |]. split.
  - apply (Hmain f1 f1 (fs1 ++ f1 :: fs1) fs1). intros t Ht.
    change (f1 :: fs1 ++ f1 :: fs1) with ((f1 :: fs1) ++ (f1 :: fs1)).
    rewrite List.map_app. unfold str_in. rewrite existsb_app.
    destruct (existsb (String.eqb t) (List.map str_lower (f1 :: fs1))); reflexivity.
  - apply (Hmain f1 f2 (fs1 ++ [f2]) (f1 :: fs1)). intros t Ht.
    change (f1 :: fs1 ++ [f2]) with ((f1 :: fs1) ++ [f2]).
    change (f2 :: f1 :: fs1) with ([f2] ++ (f1 :: fs1)).
    rewrite !List.map_app. unfold str_in. rewrite !existsb_app. apply orb_comm.
Qed.

End Generic14.

Section Examples9.
#[local] Existing Instance ascii_str.

Lemma focuses_order_irrelevant_witness :
  _apply_focus_rules day_sunny None (Some ["a"; "b"; "c"]) (Some ["Pool"; "SOLAR"; "solar"])
  = _apply_focus_rules day_sunny None (Some ["a"; "b"; "c"]) (Some ["solar"]).
Proof.
  apply (proj1 (focuses_order_irrelevant day_sunny None (Some ["a"; "b"; "c"])
                  "Pool" "solar" ["SOLAR"; "solar"] [])).
  intros t Ht. unfold str_in, recognized_focuses in Ht. cbn [existsb] in Ht.
  rewrite !orb_true_iff in Ht.
  destruct Ht as [Ht | [Ht | [Ht | Ht]]];
    try (apply String.eqb_eq in Ht; subst t; vm_compute; reflexivity).
  discriminate Ht.
Defined.

End Examples9.

Section Generic15.
Context {pystr : PyStr}.

Lemma py_lower_nontext day :
  text_field day "description" = false ->
  py_lower (py_or (dict_get day "description") (VStr "")) = Raise AttributeError.
Proof.
  unfold text_field, dict_get, dict_get_default, py_or.
  destruct (day !! "description") as [v |]; [| discriminate].
  destruct v as [| b | z | f | s | l | d]; try discriminate;
    rewrite negb_false_iff; intros ->; reflexivity.
Qed.

(** X6. The focus engine raises exactly in three cases, tried in this
    order, and only for a selector that is not empty: an [AttributeError]
    when the description is a truthy value that is not a string, a
    [TypeError] when sprinklers is selected and precip is a truthy value
    that is not a number, a [TypeError] when thermostat is selected and
    tempmax is such a value.  A malformed precip or tempmax is harmless
    when its focus is not selected, and nothing raises without a focus. *)
Theorem apply_focus_errors (day : gmap string pyval) (focus : option string)
    (tips : option (list string)) (focuses : option (list string)) :
  match focus_exception (selected_focuses focus focuses) day with
  | Some e => _apply_focus_rules day focus tips focuses = Raise e
  | None => exists r, _apply_focus_rules day focus tips focuses = Ok r
  end.
Proof.
  unfold _apply_focus_rules, focus_exception.
  destruct (selected_focuses focus focuses) as [| f fs] eqn:E.
  - eexists. reflexivity.
  - set (selected := f :: fs).
    destruct (text_field day "description") eqn:Htxt; cbn [negb].
    + rewrite (py_lower_desc day Htxt). cbn [mbind result_bind].
      unfold focus_prefix, day_precip, day_temp_max.
      rewrite !py_gt_defaulted.
      destruct (str_in "sprinklers" selected), (str_in "thermostat" selected);
        cbn [andb];
        destruct (comparable_field day "precip"), (comparable_field day "tempmax");
        cbn [negb mbind result_bind];
        first [reflexivity | eexists; reflexivity].
    + rewrite (py_lower_nontext day Htxt). reflexivity.
Qed.

End Generic15.

(** ** LLM tip generator: accepted output, number of tips, errors *)

Section Generic16.
Context {pystr : PyStr}.

Lemma apply_focus_three day focus tips focuses r :
  _apply_focus_rules day focus (Some tips) focuses = Ok r ->
  length tips = 3%nat -> length r = 3%nat.
Proof.
  intros Hr Hlen.
  destruct (selected_focuses focus focuses) as [| f fs] eqn:E.
  - rewrite (apply_focus_empty day focus (Some tips) focuses E) in Hr.
    injection Hr as <-. exact Hlen.
  - assert (Hsel : selected_focuses focus focuses <> []) by (rewrite E; discriminate).
    pose proof (apply_focus_returns day focus (Some tips) focuses r Hsel Hr) as ->.
    change (default [] (Some tips)) with tips.
    rewrite length_take, length_app. lia.
Qed.

Lemma apply_focus_weather_day day focus tips focuses :
  weather_day day = true ->
  exists r, _apply_focus_rules day focus tips focuses = Ok r.
Proof.
  intros Hday.
  destruct (selected_focuses focus focuses) as [| f fs] eqn:E.
  - eexists. apply apply_focus_empty, E.
  - eexists. apply apply_focus_selected; [exact Hday | rewrite E; discriminate].
Qed.

Section GeminiPaths.
Variable json_dumps : gmap string pyval -> string.
Variable json_loads : string -> option pyval.
Variable repr : pyval -> string.
Variable GEMINI_API_KEY : string.

Lemma rule_based_tips_three day focus focuses :
  weather_day day = true ->
  exists r, rule_based_tips day focus focuses = Ok r /\ length r = 3%nat.
Proof.
  intros Hday. unfold rule_based_tips.
  assert (Hnum : numeric_day day = true).
  { unfold weather_day in Hday. apply andb_true_iff in Hday. apply Hday. }
  rewrite (get_fallback_tips_numeric day Hnum). cbn [mbind result_bind].
  destruct (apply_focus_weather_day day focus
              (Some [irrigation_tip day; climate_tip day; appliance_tip day]) focuses Hday)
    as [r Hr].
  exists r. split; [exact Hr |]. exact (apply_focus_three _ _ _ _ _ Hr eq_refl).
Qed.

Lemma try_llm_text_three day focus focuses text tips :
  try_llm_text json_loads repr day focus focuses text = Ok (Some tips) ->
  length tips = 3%nat.
Proof.
  unfold try_llm_text.
  destruct (json_loads (strip is_fence text)) as [v |]; [| discriminate].
  cbn [from_option mbind result_bind].
  destruct (as_dict v) as [d | e]; [| discriminate]. cbn [mbind result_bind].
  destruct (dict_get d "suggestions") as [| | | | | l |]; try discriminate.
  cbn [is_list_of_3]. destruct (Nat.eqb_spec (length l) 3) as [Hl | Hl]; [| discriminate].
  destruct (_apply_focus_rules _ _ _ _) as [r | e] eqn:Hr; [| discriminate].
  cbn [mbind result_bind]. intros [= <-].
  apply (apply_focus_three _ _ _ _ _ Hr). rewrite length_fmap. exact Hl.
Qed.

(** X7. When the stripped text of the LLM parses to an object whose
    "suggestions" value is a list of exactly three elements, the generator
    returns what the focus override engine returns on these three elements
    converted to strings (the three strings themselves when no focus is
    selected); should the focus engine raise on them, the rule-based path
    is taken instead. *)
Theorem generate_tips_gemini_accepts (generate_content : list string -> llm_reply)
    (day : gmap string pyval) (focus : option string) (focuses : option (list string))
    (res_text : option string) (d : gmap string pyval) (a b c : pyval) :
  GEMINI_API_KEY <> "" ->
  generate_content [system_instruction; user_prompt json_dumps day] = LlmResponse res_text ->
  json_loads (strip is_fence (str_strip (default "" res_text))) = Some (VDict d) ->
  d !! "suggestions" = Some (VList [a; b; c]) ->
  let llm_tips := [py_str repr a; py_str repr b; py_str repr c] in
  let generated :=
    generate_tips_gemini json_dumps json_loads repr GEMINI_API_KEY (Some generate_content)
      day focus focuses in
  (forall r, _apply_focus_rules day focus (Some llm_tips) focuses = Ok r -> generated = Ok r)
  /\ (selected_focuses focus focuses = [] -> generated = Ok llm_tips)
  /\ (forall e, _apply_focus_rules day focus (Some llm_tips) focuses = Raise e ->
        generated = (tips ← get_fallback_tips day;
                     _apply_focus_rules day focus (Some tips) focuses)).
Proof.
  intros Hkey Hreply Hparse Hsug llm_tips generated.
  assert (Htry : try_llm_text json_loads repr day focus focuses
                   (str_strip (default "" res_text))
                 = (tips ← _apply_focus_rules day focus (Some llm_tips) focuses;
                    Ok (Some tips))).
  { unfold try_llm_text. rewrite Hparse. cbn [from_option mbind result_bind as_dict].
    unfold dict_get, dict_get_default. rewrite Hsug. reflexivity. }
  assert (Hgen : generated
                 = match try_llm_text json_loads repr day focus focuses
                           (str_strip (default "" res_text)) with
                   | Ok (Some tips) => Ok tips
                   | _ => rule_based_tips day focus focuses
                   end).
  { subst generated. unfold generate_tips_gemini.
    destruct (String.eqb_spec GEMINI_API_KEY ""); [contradiction |].
    rewrite Hreply. destruct (try_llm_text _ _ _ _ _ _) as [[tips |] | e]; reflexivity. }
  assert (Hok : forall r, _apply_focus_rules day focus (Some llm_tips) focuses = Ok r ->
                          generated = Ok r).
  { intros r Hr. rewrite Hgen, Htry, Hr. reflexivity. }
  split; [exact Hok |]. split.
  - intros Hsel. apply Hok. apply (apply_focus_empty day focus (Some llm_tips) focuses Hsel).
  - intros e He. rewrite Hgen, Htry, He. reflexivity.
Qed.

(** X8. On a day record of the data model the generator returns exactly
    three tips, whatever the configuration, the focus and the text of the
    LLM, as long as the call of the LLM itself does not raise. *)
Theorem generate_tips_gemini_three_tips (genai : option (list string -> llm_reply))
    (day : gmap string pyval) (focus : option string) (focuses : option (list string)) :
  weather_day day = true ->
  (forall generate_content, genai = Some generate_content ->
     generate_content [system_instruction; user_prompt json_dumps day] <> LlmRaises) ->
  exists r,
    generate_tips_gemini json_dumps json_loads repr GEMINI_API_KEY genai day focus focuses
    = Ok r
    /\ length r = 3%nat.
Proof.
  intros Hday Hllm. unfold generate_tips_gemini.
  pose proof (rule_based_tips_three day focus focuses Hday) as Hrule.
  destruct genai as [generate_content |]; [| exact Hrule].
  destruct (String.eqb GEMINI_API_KEY ""); [exact Hrule |].
  specialize (Hllm generate_content eq_refl).
  destruct (generate_content _) as [| res_text]; [contradiction |].
  destruct (try_llm_text _ _ _ _ _ _) as [[tips |] | e] eqn:Htry;
    [| exact Hrule | exact Hrule].
  exists tips. split; [reflexivity |]. exact (try_llm_text_three _ _ _ _ _ Htry).
Qed.

(** X9. Nothing the LLM answers makes the generator raise: it raises only
    when the call of the LLM itself raises, or when the rule-based path
    raises on the same day and focus, and then with the same exception. *)
Theorem generate_tips_gemini_errors (genai : option (list string -> llm_reply))
    (day : gmap string pyval) (focus : option string) (focuses : option (list string))
    (e : exn) :
  generate_tips_gemini json_dumps json_loads repr GEMINI_API_KEY genai day focus focuses
  = Raise e ->
  (exists generate_content,
     genai = Some generate_content /\ GEMINI_API_KEY <> ""
     /\ generate_content [system_instruction; user_prompt json_dumps day] = LlmRaises
     /\ e = LLMError)
  \/ (tips ← get_fallback_tips day; _apply_focus_rules day focus (Some tips) focuses)
     = Raise e.
Proof.
  unfold generate_tips_gemini.
  destruct genai as [generate_content |]; [| intros H; right; exact H].
  destruct (String.eqb_spec GEMINI_API_KEY "") as [Hk | Hk]; [intros H; right; exact H |].
  destruct (generate_content _) as [| res_text] eqn:Hreply.
  - intros [= <-]. left. exists generate_content. auto.
  - destruct (try_llm_text _ _ _ _ _ _) as [[tips |] | e'];
      [discriminate | intros H; right; exact H ..].
Qed.
End GeminiPaths.

End Generic16.

Section Examples10.
#[local] Existing Instance ascii_str.

Lemma generate_tips_gemini_accepts_witness :
  generate_tips_gemini (fun _ => "{}") three_tips_json (fun _ => "3") "key" (Some fenced_llm)
    day_sunny (Some "solar") None
  = Ok [Tip.focus_solar; "Close blinds."; "Wash cold."]
  /\ generate_tips_gemini (fun _ => "{}") three_tips_json (fun _ => "3") "key" (Some fenced_llm)
       day_sunny None None
     = Ok ["Close blinds."; "Wash cold."; "3"].
Proof.
  split.
  - apply (proj1 (generate_tips_gemini_accepts (fun _ => "{}") three_tips_json (fun _ => "3")
                    "key" fenced_llm day_sunny (Some "solar") None
                    (Some "```{three tips}```")
                    {[ "suggestions" := VList [VStr "Close blinds."; VStr "Wash cold."; VInt 3] ]}
                    (VStr "Close blinds.") (VStr "Wash cold.") (VInt 3)
                    ltac:(discriminate) eq_refl eq_refl eq_refl)).
    vm_compute. reflexivity.
  - apply (proj1 (proj2 (generate_tips_gemini_accepts (fun _ => "{}") three_tips_json
                    (fun _ => "3") "key" fenced_llm day_sunny None None
                    (Some "```{three tips}```")
                    {[ "suggestions" := VList [VStr "Close blinds."; VStr "Wash cold."; VInt 3] ]}
                    (VStr "Close blinds.") (VStr "Wash cold.") (VInt 3)
                    ltac:(discriminate) eq_refl eq_refl eq_refl))).
    reflexivity.
Defined.

Lemma generate_tips_gemini_three_tips_witness :
  exists r,
    generate_tips_gemini (fun _ => "{}") no_json (fun _ => "") "key" (Some chatty_llm)
      day_90_0_5 (Some "thermostat") None = Ok r
    /\ length r = 3%nat.
Proof.
  apply (generate_tips_gemini_three_tips (fun _ => "{}") no_json (fun _ => "") "key"
           (Some chatty_llm) day_90_0_5 (Some "thermostat") None).
  - vm_compute. reflexivity.
  - intros g [= <-]. discriminate.
Defined.

Lemma generate_tips_gemini_errors_witness :
  (exists generate_content,
     Some failing_llm = Some generate_content /\ "key" <> ""
     /\ generate_content [system_instruction; user_prompt (fun _ => "{}") day_90_0_5]
        = LlmRaises
     /\ LLMError = LLMError)
  \/ (tips ← get_fallback_tips day_90_0_5;
      _apply_focus_rules day_90_0_5 None (Some tips) None) = Raise LLMError.
Proof.
  apply (generate_tips_gemini_errors (fun _ => "{}") no_json (fun _ => "") "key"
           (Some failing_llm) day_90_0_5 None None LLMError).
  reflexivity.
Defined.

End Examples10.

(** ** Forecast normaliser: records, bounds, entries read *)

Section Generic17.
Context {pystr : PyStr}.

Lemma mapM_result_Forall2 {A B : Type} (f : A -> result B) l l' :
  mapM_result f l = Ok l' -> Forall2 (fun a b => f a = Ok b) l l'.
Proof.
  revert l'. induction l as [| a l IH]; intros l'; cbn [mapM_result].
  - intros [= <-]. constructor.
  - destruct (f a) as [b | e] eqn:Ea; [| discriminate]. cbn [mbind result_bind].
    destruct (mapM_result f l) as [bs | e]; [| discriminate]. cbn [mbind result_bind].
    intros [= <-]. constructor; [exact Ea | apply IH; reflexivity].
Qed.

(** The records of the provider path come from the entries 1 to 3. *)
Lemma normalize_forecast_items unit_group data days :
  normalize_forecast unit_group data = Ok days ->
  exists items, (length items <= 3)%nat
    /\ Forall2 (fun fd d => canonical_day unit_group fd = Ok d) items days.
Proof.
  unfold normalize_forecast.
  destruct (as_dict data) as [d | e]; [| discriminate]. cbn [mbind result_bind].
  destruct (as_dict _) as [f | e]; [| discriminate]. cbn [mbind result_bind].
  destruct (slice_1_4 _) as [items | e] eqn:Es; [| discriminate]. cbn [mbind result_bind].
  intros H. exists items. split; [| apply mapM_result_Forall2, H].
  revert Es. unfold slice_1_4.
  destruct (dict_get_default f "forecastday" (VList [])); try discriminate;
    intros [= <-]; rewrite ?length_fmap, length_take; lia.
Qed.

Lemma canonical_day_dom unit_group fd d :
  canonical_day unit_group fd = Ok d -> dom d = canonical_keys.
Proof.
  intros H. destruct (canonical_day_fields _ _ _ H) as (fdd & dd & cd & _ & _ & _ & ->).
  rewrite !dom_insert_L, dom_empty_L. unfold canonical_keys. set_solver.
Qed.

Lemma mock_day_dom today offset g : dom (mock_day today offset g).1 = canonical_keys.
Proof.
  unfold mock_day.
  repeat match goal with
  | |- context [random_uniform ?a ?b ?g] => destruct (random_uniform a b g)
  | |- context [random_choice ?a ?g] => destruct (random_choice a g)
  end.
  cbn [fst]. rewrite !dom_insert_L, dom_empty_L. unfold canonical_keys. set_solver.
Qed.

Lemma mock_loop_Forall (P : gmap string pyval -> Prop) today offsets g :
  (forall offset g', P (mock_day today offset g').1) ->
  Forall P (mock_loop today offsets g).1.
Proof.
  intros HP. revert g. induction offsets as [| o offsets IH]; intros g; [constructor |].
  cbn [mock_loop]. pose proof (HP o g) as Ho. destruct (mock_day today o g) as [d g1].
  specialize (IH g1). destruct (mock_loop today offsets g1) as [days g2].
  constructor; assumption.
Qed.

(** Every result of the normaliser is the mock forecast or comes from
    [normalize_forecast]. *)
Lemma get_weather_forecast_cases w location_param unit_group days :
  (get_weather_forecast w location_param unit_group).1 = Ok days ->
  days = (_mock_forecast_3_days (today w) (random_state w)).1
  \/ exists data, WEATHERAPI_KEY w <> ""
       /\ requests_get w (forecast_request (WEATHERAPI_KEY w) location_param) = ReplyJson data
       /\ normalize_forecast unit_group data = Ok days.
Proof.
  unfold get_weather_forecast.
  destruct (String.eqb_spec (WEATHERAPI_KEY w) "") as [Hk | Hk];
    [intros [= <-]; left; reflexivity |].
  destruct (requests_get w _) as [data | s | | []] eqn:Hreply.
  - intros Hn. right. exists data. auto.
  - destruct (status_denied s); [intros [= <-]; left; reflexivity | discriminate].
  - intros [= <-]. left. reflexivity.
  - intros [= <-]. left. reflexivity.
  - discriminate.
Qed.

(** X10. Every record the normaliser returns, from the provider or from
    the mock generator, has exactly the seven canonical keys: in
    particular "date" is always present, also when the provider sent
    none. *)
Theorem forecast_records_have_canonical_keys (w : world) (location_param unit_group : string)
    (days : list (gmap string pyval)) :
  (get_weather_forecast w location_param unit_group).1 = Ok days ->
  Forall (fun d => dom d = canonical_keys /\ is_Some (d !! "date")) days.
Proof.
  intros H.
  assert (Hdom : Forall (fun d => dom d = canonical_keys) days).
  { destruct (get_weather_forecast_cases _ _ _ _ H) as [-> | (data & _ & _ & Hn)].
    - apply mock_loop_Forall. intros offset g'. apply mock_day_dom.
    - destruct (normalize_forecast_items _ _ _ Hn) as (items & _ & Hall).
      clear H Hn. induction Hall as [| fd d items days' Hd _ IH]; [constructor |].
      constructor; [exact (canonical_day_dom _ _ _ Hd) | exact IH]. }
  eapply Forall_impl; [exact Hdom |].
  intros d Hd. split; [exact Hd |].
  apply elem_of_dom. rewrite Hd. unfold canonical_keys. set_solver.
Qed.

Lemma forecast_records_have_canonical_keys_witness :
  Forall (fun d => dom d = canonical_keys /\ is_Some (d !! "date"))
    [<[ "date" := VNone ]>
     (<[ "tempmin" := VNone ]>
     (<[ "tempmax" := VNone ]>
     (<[ "humidity" := VNone ]>
     (<[ "windspeed" := VNone ]>
     (<[ "precip" := VInt 0 ]>
     (<[ "description" := VStr "Clear" ]> (∅ : gmap string pyval)))))))].
Proof.
  apply (forecast_records_have_canonical_keys
           (world_replying (ReplyJson (sample_body [VNone; VDict ∅]))) "Paris" "us").
  vm_compute. reflexivity.
Defined.

(** X11. The normaliser never returns more than three records, whatever
    the provider answers. *)
Theorem forecast_at_most_three (w : world) (location_param unit_group : string)
    (days : list (gmap string pyval)) :
  (get_weather_forecast w location_param unit_group).1 = Ok days ->
  (length days <= 3)%nat.
Proof.
  intros H.
  destruct (get_weather_forecast_cases _ _ _ _ H) as [-> | (data & _ & _ & Hn)].
  - unfold _mock_forecast_3_days. rewrite mock_loop_length. reflexivity.
  - destruct (normalize_forecast_items _ _ _ Hn) as (items & Hlen & Hall).
    rewrite <- (Forall2_length _ _ _ Hall). exact Hlen.
Qed.

Lemma forecast_at_most_three_witness :
  exists days,
    (get_weather_forecast
       (world_replying
          (ReplyJson (sample_body (replicate 6 (sample_forecast_day "2026-11-05" 70 21)))))
       "Paris" "us").1 = Ok days
    /\ (length days <= 3)%nat.
Proof.
  destruct (get_weather_forecast
              (world_replying
                 (ReplyJson (sample_body (replicate 6 (sample_forecast_day "2026-11-05" 70 21)))))
              "Paris" "us").1 as [days | e] eqn:E; [| vm_compute in E; discriminate E].
  exists days. split; [reflexivity |].
  exact (forecast_at_most_three _ _ _ _ E).
Defined.

(** X12. Only the entries 1 to 3 of the provider's forecast-day list are
    read: two lists with the same entries 1 to 3 give the same result, so
    that today's entry may be anything, even malformed, and entries from
    the fifth on are ignored. *)
Theorem forecast_reads_entries_1_to_3 (unit_group : string) (d f : gmap string pyval)
    (l1 l2 : list pyval) :
  (take 3 (drop 1 l1) = take 3 (drop 1 l2) ->
   normalize_forecast unit_group (body_with_days d f l1)
   = normalize_forecast unit_group (body_with_days d f l2))
  /\ (forall x y, normalize_forecast unit_group (body_with_days d f (x :: l1))
                  = normalize_forecast unit_group (body_with_days d f (y :: l1)))
  /\ (forall x a b c, normalize_forecast unit_group (body_with_days d f ([x; a; b; c] ++ l1))
                      = normalize_forecast unit_group (body_with_days d f [x; a; b; c])).
Proof.
  assert (Hn : forall l, normalize_forecast unit_group (body_with_days d f l)
                         = mapM_result (canonical_day unit_group) (take 3 (drop 1 l))).
  { intros l. unfold normalize_forecast, body_with_days. cbn [as_dict mbind result_bind].
    unfold dict_get_default. rewrite lookup_insert_eq. cbn [as_dict mbind result_bind].
    rewrite lookup_insert_eq. reflexivity. }
  split; [| split].
  - intros H. rewrite !Hn, H. reflexivity.
  - intros x y. rewrite !Hn. reflexivity.
  - intros x a b c. rewrite !Hn. reflexivity.
Qed.

Lemma forecast_reads_entries_1_to_3_witness :
  normalize_forecast "us"
    (body_with_days ∅ ∅ [malformed_today; sample_forecast_day "2026-11-05" 90 32])
  = normalize_forecast "us" body_2_days.
Proof.
  transitivity
    (normalize_forecast "us"
       (body_with_days ∅ ∅
          [sample_forecast_day "2026-11-04" 70 21; sample_forecast_day "2026-11-05" 90 32])).
  - apply (proj1 (forecast_reads_entries_1_to_3 "us" ∅ ∅
                    [malformed_today; sample_forecast_day "2026-11-05" 90 32]
                    [sample_forecast_day "2026-11-04" 70 21;
                     sample_forecast_day "2026-11-05" 90 32])).
    reflexivity.
  - vm_compute. reflexivity.
Defined.

(** X13. A body without "forecast", a forecast without "forecastday" and
    a forecast-day list with at most one entry all give the empty list of
    records: no error, and no mock forecast either. *)
Theorem forecast_empty_when_days_missing (unit_group : string) (d f : gmap string pyval) :
  (d !! "forecast" = None -> normalize_forecast unit_group (VDict d) = Ok [])
  /\ (d !! "forecast" = Some (VDict f) -> f !! "forecastday" = None ->
      normalize_forecast unit_group (VDict d) = Ok [])
  /\ (forall l, d !! "forecast" = Some (VDict f) -> f !! "forecastday" = Some (VList l) ->
        (length l <= 1)%nat -> normalize_forecast unit_group (VDict d) = Ok []).
Proof.
  unfold normalize_forecast. cbn [as_dict mbind result_bind]. unfold dict_get_default.
  split; [| split].
  - intros ->. reflexivity.
  - intros -> Hf. cbn [as_dict mbind result_bind]. rewrite Hf. reflexivity.
  - intros l -> Hf Hl. cbn [as_dict mbind result_bind]. rewrite Hf.
    cbn [slice_1_4 mbind result_bind].
    destruct l as [| x [| y l]]; [reflexivity | reflexivity | cbn in Hl; lia].
Qed.

Lemma forecast_empty_when_days_missing_witness :
  (get_weather_forecast (world_replying (ReplyJson (VDict ∅))) "Paris" "us").1 = Ok [].
Proof.
  change ((get_weather_forecast (world_replying (ReplyJson (VDict ∅))) "Paris" "us").1)
    with (normalize_forecast "us" (VDict ∅)).
  apply (proj1 (forecast_empty_when_days_missing "us" ∅ ∅)). reflexivity.
Defined.

Lemma comparable_default_none (dd : gmap string pyval) k :
  is_number (dict_get dd k) || negb (truthy (dict_get dd k)) = comparable_field dd k.
Proof.
  unfold comparable_field, dict_get, dict_get_default.
  destruct (dd !! k); reflexivity.
Qed.

Lemma comparable_precip_or_zero (dd : gmap string pyval) k :
  is_number (py_or (dict_get dd k) (VInt 0)) || negb (truthy (py_or (dict_get dd k) (VInt 0)))
  = comparable_field dd k.
Proof.
  unfold comparable_field, dict_get, dict_get_default, py_or.
  destruct (dd !! k) as [v |]; [| reflexivity].
  destruct (truthy v) eqn:Ht.
  - rewrite Ht. reflexivity.
  - destruct (is_number v); reflexivity.
Qed.

(** X14. A canonical record is fit for the tip engines exactly when the
    provider fields it was read from are: its tempmax, precip and windspeed
    are numbers or null and its description is a string or null if and
    only if the provider's maximum temperature (in the unit read), wind and
    precipitation are numbers, null or missing and the condition text is a
    string, null or missing; the rule-based engine then returns its three
    tips on the record. *)
Theorem canonical_day_fit_for_tips (unit_group : string) (fd : pyval)
    (d : gmap string pyval) :
  canonical_day unit_group fd = Ok d ->
  weather_day d = provider_day_typed unit_group fd
  /\ (provider_day_typed unit_group fd = true ->
      exists t1 t2 t3, get_fallback_tips d = Ok [t1; t2; t3]).
Proof.
  intros H.
  destruct (canonical_day_fields _ _ _ H) as (fdd & dd & cd & -> & Hd & Hc & ->).
  match goal with |- weather_day ?r = _ /\ _ => set (rec := r) end.
  assert (Ht : comparable_field rec "tempmax"
               = comparable_field dd (temp_field unit_group "maxtemp")).
  { unfold comparable_field at 1. subst rec.
    repeat (rewrite lookup_insert_eq || (rewrite lookup_insert_ne by discriminate)).
    apply comparable_default_none. }
  assert (Hp : comparable_field rec "precip" = comparable_field dd "totalprecip_in").
  { unfold comparable_field at 1. subst rec.
    repeat (rewrite lookup_insert_eq || (rewrite lookup_insert_ne by discriminate)).
    apply comparable_precip_or_zero. }
  assert (Hw : comparable_field rec "windspeed" = comparable_field dd "maxwind_mph").
  { unfold comparable_field at 1. subst rec.
    repeat (rewrite lookup_insert_eq || (rewrite lookup_insert_ne by discriminate)).
    apply comparable_default_none. }
  assert (Hx : text_field rec "description" = text_field cd "text").
  { unfold text_field. subst rec.
    repeat (rewrite lookup_insert_eq || (rewrite lookup_insert_ne by discriminate)).
    unfold dict_get_default. destruct (cd !! "text") as [[] |]; reflexivity. }
  assert (Heq : weather_day rec = provider_day_typed unit_group (VDict fdd)).
  { unfold provider_day_typed. rewrite Hd, Hc.
    unfold weather_day, numeric_day. rewrite Ht, Hp, Hw, Hx.
    destruct (comparable_field dd (temp_field unit_group "maxtemp")),
             (comparable_field dd "totalprecip_in"),
             (comparable_field dd "maxwind_mph"); reflexivity. }
  split; [exact Heq |].
  intros Htyped. rewrite <- Heq in Htyped.
  unfold weather_day in Htyped. apply andb_true_iff in Htyped. destruct Htyped as [Hnum _].
  eexists _, _, _. apply get_fallback_tips_numeric, Hnum.
Qed.

Lemma canonical_day_fit_for_tips_witness :
  exists d t1 t2 t3,
    canonical_day "metric" (sample_forecast_day "2026-11-05" 90 32) = Ok d
    /\ get_fallback_tips d = Ok [t1; t2; t3].
Proof.
  destruct (canonical_day "metric" (sample_forecast_day "2026-11-05" 90 32))
    as [d | e] eqn:E; [| vm_compute in E; discriminate E].
  destruct (proj2 (canonical_day_fit_for_tips "metric" _ d E)) as (t1 & t2 & t3 & Ht).
  - vm_compute. reflexivity.
  - exists d, t1, t2, t3. split; [reflexivity | exact Ht].
Defined.

End Generic17.

(** ** Mock forecast generator: ranges and fitness for the tip engines *)

Section Generic18.
Context {pystr : PyStr}.

Lemma round_half_even_ge (m : Z) q : (inject_Z m <= q)%Q -> m <= round_half_even q.
Proof.
  intros H. unfold round_half_even.
  assert (Hf : m <= Qfloor q).
  { rewrite <- (Qfloor_Z m). apply Qfloor_resp_le, H. }
  destruct (_ ?= _)%Q; [destruct (Z.even _) | |]; lia.
Qed.

Lemma round_half_even_le (M : Z) q : (q <= inject_Z M)%Q -> round_half_even q <= M.
Proof.
  intros H. unfold round_half_even.
  assert (Hf : Qfloor q <= M).
  { rewrite <- (Qfloor_Z M). apply Qfloor_resp_le, H. }
  assert (Hup : (inject_Z (Qfloor q) < q)%Q -> Qfloor q + 1 <= M).
  { intros Hlt. assert (Hz : (inject_Z (Qfloor q) < inject_Z M)%Q) by lra.
    rewrite <- Zlt_Qlt in Hz. lia. }
  destruct (q - inject_Z (Qfloor q) ?= 1 # 2)%Q eqn:E.
  - apply Qeq_alt in E. destruct (Z.even _); [lia |]. apply Hup. lra.
  - lia.
  - apply Qgt_alt in E. apply Hup. lra.
Qed.

Lemma Qle_same_den (a b : Z) (d : positive) : a <= b -> (a # d <= b # d)%Q.
Proof. intros H. unfold Qle. cbn [Qnum Qden]. nia. Qed.

Lemma py_round_between q (n : positive) (A B : Z) :
  (inject_Z A <= q * inject_Z (Zpos (10 ^ n)))%Q ->
  (q * inject_Z (Zpos (10 ^ n)) <= inject_Z B)%Q ->
  (A # (10 ^ n) <= py_round q n)%Q /\ (py_round q n <= B # (10 ^ n))%Q.
Proof.
  intros HA HB. unfold py_round. split; apply Qle_same_den.
  - apply round_half_even_ge, HA.
  - apply round_half_even_le, HB.
Qed.

Lemma py_int_between q (A B : Z) :
  0 <= A -> (inject_Z A <= q)%Q -> (q < inject_Z (B + 1))%Q -> A <= py_int q <= B.
Proof.
  intros H0 HA HB. unfold py_int.
  assert (Hq : (0 <= q)%Q).
  { eapply Qle_trans; [| exact HA]. rewrite Zle_Qle in H0. exact H0. }
  assert (Hn : 0 <= Qnum q).
  { unfold Qle in Hq. cbn in Hq. lia. }
  rewrite Z.quot_div_nonneg by lia.
  change (Qnum q / Z.pos (Qden q)) with (Qfloor (Qnum q # Qden q)).
  replace (Qnum q # Qden q) with q by (destruct q; reflexivity).
  split.
  - rewrite <- (Qfloor_Z A). apply Qfloor_resp_le, HA.
  - pose proof (Qfloor_le q) as Hfl.
    assert (Hz : (inject_Z (Qfloor q) < inject_Z (B + 1))%Q) by lra.
    rewrite <- Zlt_Qlt in Hz. lia.
Qed.

(** The record of [mock_day], with the numbers drawn written out. *)
Lemma mock_day_record today offset g :
  let u i := random_stream g (i + rng_pos g)%nat in
  (mock_day today offset g).1
  = <[ "date" := VStr (strftime_ymd (today + offset)) ]>
    (<[ "tempmin" := VFloat (FFin (py_round ((60 # 1) + ((-5 # 1) + ((5 # 1) - (-5 # 1)) * u 0%nat)) 1)) ]>
    (<[ "tempmax" := VFloat (FFin (py_round ((75 # 1) + ((-5 # 1) + ((10 # 1) - (-5 # 1)) * u 1%nat)) 1)) ]>
    (<[ "humidity" := VInt (py_int ((35 # 1) + ((0 # 1) + ((50 # 1) - (0 # 1)) * u 2%nat))) ]>
    (<[ "windspeed" := VFloat (FFin (py_round ((5 # 1) + ((0 # 1) + ((20 # 1) - (0 # 1)) * u 3%nat)) 1)) ]>
    (<[ "precip" :=
          if Qltb 0 ((0 # 1) + ((1 # 2) - (0 # 1)) * u 4%nat)
          then VFloat (FFin (py_round ((0 # 1) + ((1 # 2) - (0 # 1)) * u 4%nat) 2))
          else VInt 0 ]>
    (<[ "description" :=
          VStr (nth (randbelow_stream g (5 + rng_pos g)%nat (length mock_descriptions)
                     mod length mock_descriptions)%nat mock_descriptions "") ]> ∅))))))
  /\ random_stream (mock_day today offset g).2 = random_stream g.
Proof. split; reflexivity. Qed.

Lemma mock_day_ranges today offset g :
  unit_interval_rng g -> mock_day_in_range (mock_day today offset g).1.
Proof.
  intros Hg. destruct (mock_day_record today offset g) as [-> _].
  unfold mock_day_in_range.
  repeat (rewrite lookup_insert_eq || (rewrite lookup_insert_ne by discriminate)).
  pose proof (Hg (0 + rng_pos g)%nat) as [H0 H0'].
  pose proof (Hg (1 + rng_pos g)%nat) as [H1 H1'].
  pose proof (Hg (2 + rng_pos g)%nat) as [H2 H2'].
  pose proof (Hg (3 + rng_pos g)%nat) as [H3 H3'].
  pose proof (Hg (4 + rng_pos g)%nat) as [H4 H4'].
  split; [| split; [| split; [| split; [| split]]]].
  - eexists. split; [reflexivity |].
    destruct (py_round_between
                ((60 # 1) + ((-5 # 1) + ((5 # 1) - (-5 # 1)) * random_stream g (0 + rng_pos g)%nat))
                1 550 650) as [Ha Hb].
    + change (inject_Z (Z.pos (10 ^ 1))) with (10 # 1). change (inject_Z 550) with (550 # 1). lra.
    + change (inject_Z (Z.pos (10 ^ 1))) with (10 # 1). change (inject_Z 650) with (650 # 1). lra.
    + change (10 ^ 1)%positive with 10%positive in Ha, Hb.
      split; [eapply Qle_trans; [| exact Ha] | eapply Qle_trans; [exact Hb |]]; discriminate.
  - eexists. split; [reflexivity |].
    destruct (py_round_between
                ((75 # 1) + ((-5 # 1) + ((10 # 1) - (-5 # 1)) * random_stream g (1 + rng_pos g)%nat))
                1 700 850) as [Ha Hb].
    + change (inject_Z (Z.pos (10 ^ 1))) with (10 # 1). change (inject_Z 700) with (700 # 1). lra.
    + change (inject_Z (Z.pos (10 ^ 1))) with (10 # 1). change (inject_Z 850) with (850 # 1). lra.
    + change (10 ^ 1)%positive with 10%positive in Ha, Hb.
      split; [eapply Qle_trans; [| exact Ha] | eapply Qle_trans; [exact Hb |]]; discriminate.
  - eexists. split; [reflexivity |].
    apply py_int_between; [lia | |].
    + change (inject_Z 35) with (35 # 1). lra.
    + change (inject_Z (84 + 1)) with (85 # 1). lra.
  - eexists. split; [reflexivity |].
    destruct (py_round_between
                ((5 # 1) + ((0 # 1) + ((20 # 1) - (0 # 1)) * random_stream g (3 + rng_pos g)%nat))
                1 50 250) as [Ha Hb].
    + change (inject_Z (Z.pos (10 ^ 1))) with (10 # 1). change (inject_Z 50) with (50 # 1). lra.
    + change (inject_Z (Z.pos (10 ^ 1))) with (10 # 1). change (inject_Z 250) with (250 # 1). lra.
    + change (10 ^ 1)%positive with 10%positive in Ha, Hb.
      split; [eapply Qle_trans; [| exact Ha] | eapply Qle_trans; [exact Hb |]]; discriminate.
  - destruct (Qltb 0 _); [right | left; reflexivity].
    eexists. split; [reflexivity |].
    destruct (py_round_between
                ((0 # 1) + ((1 # 2) - (0 # 1)) * random_stream g (4 + rng_pos g)%nat)
                2 0 50) as [Ha Hb].
    + change (inject_Z (Z.pos (10 ^ 2))) with (100 # 1). change (inject_Z 0) with (0 # 1). lra.
    + change (inject_Z (Z.pos (10 ^ 2))) with (100 # 1). change (inject_Z 50) with (50 # 1). lra.
    + change (10 ^ 2)%positive with 100%positive in Ha, Hb.
      split; [eapply Qle_trans; [| exact Ha] | eapply Qle_trans; [exact Hb |]]; discriminate.
  - eexists. split; [reflexivity |].
    apply list_elem_of_In, nth_In. apply Nat.mod_upper_bound. discriminate.
Qed.


End Generic18.

Section MockRanges.

Lemma mock_loop_Forall_unit (P : gmap string pyval -> Prop) today offsets g :
  unit_interval_rng g ->
  (forall offset g', unit_interval_rng g' -> P (mock_day today offset g').1) ->
  Forall P (mock_loop today offsets g).1.
Proof.
  intros Hg HP. revert g Hg.
  induction offsets as [| o offsets IH]; intros g Hg; [constructor |].
  cbn [mock_loop]. pose proof (HP o g Hg) as Ho.
  assert (Hg1 : unit_interval_rng (mock_day today o g).2).
  { unfold unit_interval_rng. destruct (mock_day_record today o g) as [_ ->]. exact Hg. }
  destruct (mock_day today o g) as [d g1].
  specialize (IH g1 Hg1). destruct (mock_loop today offsets g1) as [days g2].
  constructor; assumption.
Qed.

(** X15. When [random()] stays in [0, 1), every record of the mock
    forecast has tempmin between 55 and 65, tempmax between 70 and 85,
    an integer humidity between 35 and 84, windspeed between 5 and 25,
    precip between 0 and 0.5 and one of the five fixed descriptions. *)
Theorem mock_forecast_in_range (today : Z) (g : rng) :
  unit_interval_rng g ->
  Forall mock_day_in_range (_mock_forecast_3_days today g).1.
Proof.
  intros Hg. unfold _mock_forecast_3_days.
  apply mock_loop_Forall_unit; [exact Hg |].
  intros offset g' Hg'. apply mock_day_ranges, Hg'.
Qed.

Lemma mock_day_weather_day today offset g : weather_day (mock_day today offset g).1 = true.
Proof.
  destruct (mock_day_record today offset g) as [-> _].
  unfold weather_day, numeric_day, comparable_field, text_field.
  repeat (rewrite lookup_insert_eq || (rewrite lookup_insert_ne by discriminate)).
  destruct (Qltb 0 _); reflexivity.
Qed.

(** X16. The rule-based engine never fails on the mock forecast: it
    returns its three tips on every record, whatever the random numbers
    drawn; when [random()] stays in [0, 1), tempmin is below tempmax and
    the climate tip is never the lower-heat tip. *)
Theorem mock_forecast_fit_for_tips (today : Z) (g : rng) :
  Forall (fun d => weather_day d = true
                   /\ exists t1 t2 t3, get_fallback_tips d = Ok [t1; t2; t3])
    (_mock_forecast_3_days today g).1
  /\ (unit_interval_rng g ->
      Forall (fun d => (exists lo hi,
                          d !! "tempmin" = Some (VFloat (FFin lo))
                          /\ d !! "tempmax" = Some (VFloat (FFin hi)) /\ (lo < hi)%Q)
                       /\ exists t1 t3, (get_fallback_tips d = Ok [t1; Tip.hot; t3]
                                         \/ get_fallback_tips d = Ok [t1; Tip.mild; t3]))
        (_mock_forecast_3_days today g).1).
Proof.
  split.
  - apply mock_loop_Forall. intros offset g'.
    pose proof (mock_day_weather_day today offset g') as Hd.
    split; [exact Hd |].
    unfold weather_day in Hd. apply andb_true_iff in Hd. destruct Hd as [Hnum _].
    eexists _, _, _. apply get_fallback_tips_numeric, Hnum.
  - intros Hg. unfold _mock_forecast_3_days.
    apply mock_loop_Forall_unit; [exact Hg |].
    intros offset g' Hg'.
    pose proof (mock_day_ranges today offset g' Hg') as Hrange.
    pose proof (mock_day_weather_day today offset g') as Hd.
    destruct Hrange as ((lo & Hlo & Hlo1 & Hlo2) & (hi & Hhi & Hhi1 & Hhi2) & _).
    split.
    + exists lo, hi. split; [exact Hlo |]. split; [exact Hhi | lra].
    + unfold weather_day in Hd. apply andb_true_iff in Hd. destruct Hd as [Hnum _].
      rewrite (get_fallback_tips_numeric _ Hnum).
      exists (irrigation_tip (mock_day today offset g').1),
             (appliance_tip (mock_day today offset g').1).
      unfold climate_tip.
      assert (Hmax : day_temp_max (mock_day today offset g').1 = VFloat (FFin hi)).
      { unfold day_temp_max, dict_get_default. rewrite Hhi. unfold py_or.
        cbn [truthy]. unfold Qis_zero.
        destruct (Qeq_bool hi 0) eqn:E; [| reflexivity].
        apply Qeq_bool_iff in E. lra. }
      rewrite Hmax.
      destruct (gtb (VFloat (FFin hi)) (85 # 1)); [left; reflexivity |].
      assert (Hlt : ltb (VFloat (FFin hi)) (60 # 1) = false).
      { unfold ltb. cbn [num_compare].
        destruct (hi ?= 60 # 1)%Q eqn:E; try reflexivity.
        apply Qlt_alt in E. lra. }
      rewrite Hlt. right. reflexivity.
Qed.

End MockRanges.

Lemma half_rng_unit_interval : unit_interval_rng half_rng.
Proof. intros n. split; [discriminate | reflexivity]. Qed.

Lemma mock_forecast_in_range_witness :
  Forall mock_day_in_range (_mock_forecast_3_days 739924 half_rng).1.
Proof. apply mock_forecast_in_range, half_rng_unit_interval. Defined.

Lemma mock_forecast_fit_for_tips_witness :
  Forall (fun d => (exists lo hi,
                      d !! "tempmin" = Some (VFloat (FFin lo))
                      /\ d !! "tempmax" = Some (VFloat (FFin hi)) /\ (lo < hi)%Q)
                   /\ exists t1 t3, (get_fallback_tips d = Ok [t1; Tip.hot; t3]
                                     \/ get_fallback_tips d = Ok [t1; Tip.mild; t3]))
    (_mock_forecast_3_days 739924 half_rng).1.
Proof.
  apply (proj2 (mock_forecast_fit_for_tips 739924 half_rng)), half_rng_unit_interval.
Defined.

(** ** Request handler: validation, failures, response *)

Section HandlerProps.
Context {pystr : PyStr}.
Variable repr : pyval -> string.
Variable exn_str : handler_exn -> string.
Variable fetch_forecast : string -> pyval -> result (list (gmap string pyval)).
Variable generate_tips : gmap string pyval -> pyval -> pyval -> result (list string).

Lemma mapM_outcome_Done {A B : Type} (f : A -> outcome B) l bs :
  mapM_outcome f l = Done bs -> Forall2 (fun a b => f a = Done b) l bs.
Proof.
  revert bs. induction l as [| a l IH]; intros bs; cbn [mapM_outcome].
  - intros [= <-]. constructor.
  - destruct (f a) as [b | e] eqn:Ea; [| discriminate]. cbn [mbind outcome_bind].
    destruct (mapM_outcome f l) as [bs' | e]; [| discriminate]. cbn [mbind outcome_bind].
    intros [= <-]. constructor; [exact Ea | apply IH; reflexivity].
Qed.

Lemma mapM_outcome_all {A B : Type} (f : A -> outcome B) l :
  Forall (fun a => exists b, f a = Done b) l ->
  exists bs, mapM_outcome f l = Done bs.
Proof.
  induction 1 as [| a l [b Hb] _ [bs Hbs]]; cbn [mapM_outcome].
  - eexists. reflexivity.
  - rewrite Hb, Hbs. eexists. reflexivity.
Qed.

Lemma day_entry_Done focus focuses d entry :
  day_entry generate_tips focus focuses d = Done entry <->
  exists suggestions date,
    generate_tips d focus focuses = Ok suggestions /\ d !! "date" = Some date
    /\ entry = day_entry_of d date suggestions.
Proof.
  unfold day_entry, day_entry_of. split.
  - destruct (generate_tips d focus focuses) as [s | e]; [| discriminate].
    cbn [lift mbind outcome_bind].
    destruct (d !! "date") as [date |]; [| discriminate].
    cbn [from_option mbind outcome_bind]. intros [= <-]. exists s, date. auto.
  - intros (s & date & -> & -> & ->). reflexivity.
Qed.

(** The body of the [try] on a request with fields. *)
Lemma tips_try_request req body :
  request_fields req = Some body ->
  tips_try repr fetch_forecast generate_tips req
  = if negb (has_coordinates body) && String.eqb (request_location repr body) ""
    then Done (mk_response 400 {[ "error" := VStr "Location or lat/lon required" ]})
    else
      forecast ← lift (fetch_forecast (request_location_param repr body)
                         (dict_get_default body "unit_group" (VStr "us")));
      days ← mapM_outcome
                (day_entry generate_tips (dict_get body "focus") (dict_get body "focuses"))
                forecast;
      Done (mk_response 200
              (<[ "location" := VStr (request_location_param repr body) ]>
              (<[ "unit_group" := dict_get_default body "unit_group" (VStr "us") ]>
              (<[ "days" := VList days ]> ∅)))).
Proof.
  destruct req as [b |]; [| discriminate]. unfold request_fields.
  destruct (py_or b (VDict ∅)) as [| | | | | | d] eqn:E; try discriminate.
  intros [= ->]. unfold tips_try. cbn [mbind outcome_bind]. rewrite E.
  cbn [as_dict lift mbind outcome_bind].
  unfold has_coordinates, request_location, request_location_param.
  rewrite negb_andb, !negb_involutive. reflexivity.
Qed.

Lemma tips_try_no_fields req :
  request_fields req = None ->
  exists e, tips_try repr fetch_forecast generate_tips req = Failed e.
Proof.
  destruct req as [b |]; [| intros _; eexists; reflexivity]. unfold request_fields.
  intros Hb. unfold tips_try. cbn [mbind outcome_bind].
  destruct (py_or b (VDict ∅)); try discriminate Hb; eexists; reflexivity.
Qed.

(** The three shapes of a response. *)
Lemma tips_response_shape req :
  (status (tips repr exn_str fetch_forecast generate_tips req) = 400
   /\ payload (tips repr exn_str fetch_forecast generate_tips req)
      = {[ "error" := VStr "Location or lat/lon required" ]}
   /\ exists body, request_fields req = Some body
        /\ has_coordinates body = false /\ request_location repr body = "")
  \/ (status (tips repr exn_str fetch_forecast generate_tips req) = 500
      /\ exists e, tips_try repr fetch_forecast generate_tips req = Failed e
           /\ payload (tips repr exn_str fetch_forecast generate_tips req)
              = {[ "error" := VStr (exn_str e) ]})
  \/ (status (tips repr exn_str fetch_forecast generate_tips req) = 200
      /\ exists body forecast days,
           request_fields req = Some body
           /\ (has_coordinates body = true \/ request_location repr body <> "")
           /\ fetch_forecast (request_location_param repr body)
                (dict_get_default body "unit_group" (VStr "us")) = Ok forecast
           /\ mapM_outcome
                (day_entry generate_tips (dict_get body "focus") (dict_get body "focuses"))
                forecast = Done days
           /\ payload (tips repr exn_str fetch_forecast generate_tips req)
              = <[ "location" := VStr (request_location_param repr body) ]>
                (<[ "unit_group" := dict_get_default body "unit_group" (VStr "us") ]>
                (<[ "days" := VList days ]> ∅))).
Proof.
  unfold tips.
  destruct (request_fields req) as [body |] eqn:Hf.
  - rewrite (tips_try_request req body Hf).
    destruct (has_coordinates body) eqn:Hc; cbn [negb andb].
    + destruct (fetch_forecast _ _) as [forecast | e] eqn:Hfetch; cbn [lift mbind outcome_bind].
      * destruct (mapM_outcome _ forecast) as [days | e] eqn:Hdays; cbn [mbind outcome_bind].
        -- right. right. split; [reflexivity |]. exists body, forecast, days. auto 10.
        -- right. left. split; [reflexivity |]. eexists. split; reflexivity.
      * right. left. split; [reflexivity |]. eexists. split; reflexivity.
    + destruct (String.eqb_spec (request_location repr body) "") as [Hl | Hl].
      * left. split; [reflexivity |]. split; [reflexivity |]. exists body. auto.
      * destruct (fetch_forecast _ _) as [forecast | e] eqn:Hfetch;
          cbn [lift mbind outcome_bind].
        -- destruct (mapM_outcome _ forecast) as [days | e] eqn:Hdays;
             cbn [mbind outcome_bind].
           ++ right. right. split; [reflexivity |]. exists body, forecast, days. auto 10.
           ++ right. left. split; [reflexivity |]. eexists. split; reflexivity.
        -- right. left. split; [reflexivity |]. eexists. split; reflexivity.
  - destruct (tips_try_no_fields req Hf) as [e He]. rewrite He.
    right. left. split; [reflexivity |]. exists e. split; reflexivity.
Qed.

(** X17. The handler answers 400, with the message "Location or lat/lon
    required", exactly when the request body is an object (or is falsy, and
    then counts as the empty object) in which [lat] or [lon] is null or
    missing and the stripped location is empty; neither the provider nor
    the tip generator is consulted for this answer. *)
Theorem tips_rejects_missing_location (req : request_json) :
  (status (tips repr exn_str fetch_forecast generate_tips req) = 400 <->
   exists body, request_fields req = Some body
     /\ has_coordinates body = false /\ request_location repr body = "")
  /\ (status (tips repr exn_str fetch_forecast generate_tips req) = 400 ->
      tips repr exn_str fetch_forecast generate_tips req
      = mk_response 400 {[ "error" := VStr "Location or lat/lon required" ]}).
Proof.
  destruct (tips_response_shape req)
    as [(Hs & Hp & body & Hb) | [(Hs & _) | (Hs & body & forecast & days & Hb & Hv & _)]].
  - split.
    + split; [intros _; exists body; exact Hb | intros _; exact Hs].
    + intros _. destruct (tips _ _ _ _ req) as [st pl]. cbn in Hs, Hp. subst. reflexivity.
  - rewrite Hs. split; [split; [discriminate |] | discriminate].
    intros (body & Hb & Hc & Hl). exfalso.
    revert Hs. unfold tips. rewrite (tips_try_request req body Hb), Hc, Hl. discriminate.
  - rewrite Hs. split; [split; [discriminate |] | discriminate].
    intros (body' & Hb' & Hc & Hl). exfalso.
    rewrite Hb in Hb'. injection Hb' as <-.
    destruct Hv as [Hv | Hv]; congruence.
Qed.

(** X18. A response has status 200, 400 or 500, and no partial result is
    ever returned: when the status is not 200 the payload holds the single
    key "error".  The status is 500 when the request body is not JSON or is
    a truthy value that is not an object, when the forecast raises (the
    message is then that of the exception raised), and when the generator
    raises for one of the days. *)
Theorem tips_failure_response (req : request_json) :
  (status (tips repr exn_str fetch_forecast generate_tips req) = 200
   \/ status (tips repr exn_str fetch_forecast generate_tips req) = 400
   \/ status (tips repr exn_str fetch_forecast generate_tips req) = 500)
  /\ (status (tips repr exn_str fetch_forecast generate_tips req) <> 200 ->
      dom (payload (tips repr exn_str fetch_forecast generate_tips req)) = {[ "error" ]})
  /\ (request_fields req = None ->
      status (tips repr exn_str fetch_forecast generate_tips req) = 500)
  /\ (forall body e,
        request_fields req = Some body ->
        has_coordinates body = true \/ request_location repr body <> "" ->
        fetch_forecast (request_location_param repr body)
          (dict_get_default body "unit_group" (VStr "us")) = Raise e ->
        tips repr exn_str fetch_forecast generate_tips req
        = mk_response 500 {[ "error" := VStr (exn_str (Raised e)) ]})
  /\ (forall body forecast d e,
        request_fields req = Some body ->
        has_coordinates body = true \/ request_location repr body <> "" ->
        fetch_forecast (request_location_param repr body)
          (dict_get_default body "unit_group" (VStr "us")) = Ok forecast ->
        d ∈ forecast ->
        generate_tips d (dict_get body "focus") (dict_get body "focuses") = Raise e ->
        status (tips repr exn_str fetch_forecast generate_tips req) = 500).
Proof.
  assert (Hvalid : forall body,
            has_coordinates body = true \/ request_location repr body <> "" ->
            negb (has_coordinates body) && String.eqb (request_location repr body) "" = false).
  { intros body [Hc | Hl]; [rewrite Hc; reflexivity |].
    destruct (String.eqb_spec (request_location repr body) ""); [contradiction |].
    apply andb_false_r. }
  split; [| split; [| split; [| split]]].
  - destruct (tips_response_shape req) as [(Hs & _) | [(Hs & _) | (Hs & _)]]; auto.
  - destruct (tips_response_shape req)
      as [(_ & Hp & _) | [(_ & e & _ & Hp) | (Hs & _)]]; [| | contradiction];
      intros _; rewrite Hp; apply dom_singleton_L.
  - intros Hf. unfold tips. destruct (tips_try_no_fields req Hf) as [e ->]. reflexivity.
  - intros body e Hb Hv Hfetch. unfold tips.
    rewrite (tips_try_request req body Hb), (Hvalid body Hv), Hfetch. reflexivity.
  - intros body forecast d e Hb Hv Hfetch Hd Hgen. unfold tips.
    rewrite (tips_try_request req body Hb), (Hvalid body Hv), Hfetch.
    cbn [lift mbind outcome_bind].
    destruct (mapM_outcome _ forecast) as [days | e'] eqn:Hdays; [| reflexivity].
    exfalso. apply mapM_outcome_Done in Hdays.
    apply list_elem_of_lookup in Hd. destruct Hd as [i Hi].
    destruct (Forall2_lookup_l _ _ _ _ _ Hdays Hi) as (entry & _ & Hentry).
    apply day_entry_Done in Hentry. destruct Hentry as (s & date & Hs & _).
    congruence.
Qed.

(** X19. When the request is accepted, the forecast is returned and the
    generator returns for every day, each day having a date, the response
    has status 200 and holds the location that was sent to the provider,
    the unit group of the request ("us" when missing) and one entry per
    forecast day, in the order of the forecast, with the date, the weather
    and the generated suggestions of that day. *)
Theorem tips_success_response (req : request_json) (body : gmap string pyval)
    (forecast : list (gmap string pyval)) :
  request_fields req = Some body ->
  has_coordinates body = true \/ request_location repr body <> "" ->
  fetch_forecast (request_location_param repr body)
    (dict_get_default body "unit_group" (VStr "us")) = Ok forecast ->
  Forall (fun d => is_Some (d !! "date")
                   /\ exists s, generate_tips d (dict_get body "focus")
                                  (dict_get body "focuses") = Ok s) forecast ->
  exists days,
    tips repr exn_str fetch_forecast generate_tips req
    = mk_response 200
        (<[ "location" := VStr (request_location_param repr body) ]>
        (<[ "unit_group" := dict_get_default body "unit_group" (VStr "us") ]>
        (<[ "days" := VList days ]> ∅)))
    /\ length days = length forecast
    /\ Forall2 (fun d entry =>
                  exists date suggestions,
                    d !! "date" = Some date
                    /\ generate_tips d (dict_get body "focus") (dict_get body "focuses")
                       = Ok suggestions
                    /\ entry = day_entry_of d date suggestions) forecast days.
Proof.
  intros Hb Hv Hfetch Hall.
  assert (Hvalid : negb (has_coordinates body)
                   && String.eqb (request_location repr body) "" = false).
  { destruct Hv as [Hc | Hl]; [rewrite Hc; reflexivity |].
    destruct (String.eqb_spec (request_location repr body) ""); [contradiction |].
    apply andb_false_r. }
  destruct (mapM_outcome_all
              (day_entry generate_tips (dict_get body "focus") (dict_get body "focuses"))
              forecast) as [days Hdays].
  { eapply Forall_impl; [exact Hall |]. intros d ([date Hdate] & s & Hs).
    exists (day_entry_of d date s). apply day_entry_Done. exists s, date. auto. }
  exists days. unfold tips.
  rewrite (tips_try_request req body Hb), Hvalid, Hfetch. cbn [lift mbind outcome_bind].
  rewrite Hdays. cbn [mbind outcome_bind]. split; [reflexivity |].
  apply mapM_outcome_Done in Hdays.
  split; [symmetry; exact (Forall2_length _ _ _ Hdays) |].
  eapply Forall2_impl; [exact Hdays |].
  intros d entry Hentry. apply day_entry_Done in Hentry.
  destruct Hentry as (s & date & Hs & Hdate & ->). exists date, s. auto.
Qed.

(** X20. When both [lat] and [lon] are given, the location of the request
    is not used: two request bodies that differ only in "location" get the
    same response. *)
Theorem tips_coordinates_override_location (body : gmap string pyval) (location : pyval) :
  has_coordinates body = true ->
  tips repr exn_str fetch_forecast generate_tips (JsonBody (VDict (<[ "location" := location ]> body)))
  = tips repr exn_str fetch_forecast generate_tips (JsonBody (VDict body)).
Proof.
  intros Hc.
  assert (Hlat : dict_get body "lat" <> VNone /\ dict_get body "lon" <> VNone).
  { unfold has_coordinates in Hc. apply andb_true_iff in Hc. destruct Hc as [H1 H2].
    split; intros E; rewrite E in *; discriminate. }
  assert (Hne : body <> ∅).
  { intros ->. destruct Hlat as [Hl _]. apply Hl. reflexivity. }
  assert (Hf1 : request_fields (JsonBody (VDict body)) = Some body).
  { unfold request_fields, py_or. cbn [truthy].
    destruct (bool_decide (size body = 0%nat)) eqn:E; [| reflexivity].
    apply bool_decide_eq_true in E. apply map_size_empty_iff in E. contradiction. }
  assert (Hf2 : request_fields (JsonBody (VDict (<[ "location" := location ]> body)))
                = Some (<[ "location" := location ]> body)).
  { unfold request_fields, py_or. cbn [truthy].
    destruct (bool_decide (size (<[ "location" := location ]> body) = 0%nat)) eqn:E;
      [| reflexivity].
    apply bool_decide_eq_true in E. apply map_size_empty_iff in E.
    exfalso. exact (insert_non_empty _ _ _ E). }
  assert (Hget : forall k, k <> "location" ->
            (<[ "location" := location ]> body) !! k = body !! k).
  { intros k Hk. apply lookup_insert_ne. congruence. }
  assert (Hc' : has_coordinates (<[ "location" := location ]> body) = true).
  { revert Hc. unfold has_coordinates, dict_get, dict_get_default.
    rewrite !Hget by discriminate. tauto. }
  assert (Hparam : request_location_param repr (<[ "location" := location ]> body)
                   = request_location_param repr body).
  { unfold request_location_param, resolve_location.
    fold (has_coordinates (<[ "location" := location ]> body)). fold (has_coordinates body).
    rewrite Hc', Hc. unfold dict_get, dict_get_default.
    rewrite !Hget by discriminate. reflexivity. }
  unfold tips. rewrite (tips_try_request _ _ Hf1), (tips_try_request _ _ Hf2).
  rewrite Hc, Hc', Hparam. cbn [negb andb].
  unfold dict_get, dict_get_default. rewrite !Hget by discriminate. reflexivity.
Qed.

End HandlerProps.
